(** * deepseek.py: the local relay server, as a shallow embedding

    The server is a Flask application with five handlers around one
    credential file ([config.json]), one context file ([contexto.txt]), one
    module-level variable ([contexto]) and the OpenAI client library.

    The embedding follows the source function by function.  Python values are
    modelled as follows.
    - a [str] is a list of Unicode code points ([pystr]);
    - a value decoded from JSON, or handed to [jsonify], is a [json];
    - an exception is a value of [exn]; code that may raise lives in the monad
      [M], which threads the [world] (files, the global [contexto], and the
      trace of observable effects) and either returns or raises;
    - what the server cannot decide by itself (the text of an exception, the
      behaviour of the OpenAI client and of the remote API, the directory of
      the script) is a field of [runtime], over which every statement is
      quantified. *)

From Stdlib Require Import List NArith ZArith String Ascii Lia.
Import ListNotations.

Set Warnings "-register-all".

(* ================================================================== *)
(** ** Python strings *)
(* ================================================================== *)

Module PyStr.

(** A Python [str]: a sequence of code points. *)
Definition pystr := list N.

Local Open Scope N_scope.

(** Source literals are written in the file as UTF-8, as in [deepseek.py];
    [utf8_decode] turns their bytes into code points.  A malformed tail is
    kept byte by byte (no literal of the program has one). *)
Fixpoint utf8_decode (bs : list N) : pystr :=
  match bs with
  | [] => []
  | b0 :: r0 =>
    if b0 <? 0x80 then b0 :: utf8_decode r0
    else if b0 <? 0xE0 then
      match r0 with
      | b1 :: r1 => ((b0 - 0xC0) * 64 + (b1 - 0x80)) :: utf8_decode r1
      | _ => b0 :: utf8_decode r0
      end
    else if b0 <? 0xF0 then
      match r0 with
      | b1 :: b2 :: r2 =>
        ((b0 - 0xE0) * 4096 + (b1 - 0x80) * 64 + (b2 - 0x80)) :: utf8_decode r2
      | _ => b0 :: utf8_decode r0
      end
    else
      match r0 with
      | b1 :: b2 :: b3 :: r3 =>
        ((b0 - 0xF0) * 262144 + (b1 - 0x80) * 4096 + (b2 - 0x80) * 64
         + (b3 - 0x80)) :: utf8_decode r3
      | _ => b0 :: utf8_decode r0
      end
  end.

Fixpoint bytes_of (s : string) : list N :=
  match s with
  | EmptyString => []
  | String a t => N_of_ascii a :: bytes_of t
  end.

(** [py "..."] is the Python literal ["..."]. *)
Definition py (s : string) : pystr := utf8_decode (bytes_of s).

(** [str.isspace] on one code point (CPython's [Py_UNICODE_ISSPACE]). *)
Definition isspace (c : N) : bool :=
  ((0x09 <=? c) && (c <=? 0x0D)) || ((0x1C <=? c) && (c <=? 0x20))
  || (c =? 0x85) || (c =? 0xA0) || (c =? 0x1680)
  || ((0x2000 <=? c) && (c <=? 0x200A))
  || (c =? 0x2028) || (c =? 0x2029) || (c =? 0x202F) || (c =? 0x205F)
  || (c =? 0x3000).

(** [s.lstrip()], [s.rstrip()] and [s.strip()] with no argument. *)
Fixpoint lstrip (s : pystr) : pystr :=
  match s with
  | [] => []
  | c :: t => if isspace c then lstrip t else s
  end.

Fixpoint rstrip (s : pystr) : pystr :=
  match s with
  | [] => []
  | c :: t =>
    match rstrip t with
    | [] => if isspace c then [] else [c]
    | t' => c :: t'
    end
  end.

Definition strip (s : pystr) : pystr := rstrip (lstrip s).

(** [s.startswith(p)]. *)
Fixpoint startswith (s p : pystr) : bool :=
  match p, s with
  | [], _ => true
  | _ :: _, [] => false
  | a :: p', b :: s' => (a =? b) && startswith s' p'
  end.

(** [s == t]. *)
Fixpoint str_eqb (s t : pystr) : bool :=
  match s, t with
  | [], [] => true
  | a :: s', b :: t' => (a =? b) && str_eqb s' t'
  | _, _ => false
  end.

(** [bool(s)]: a string is true when it is not empty. *)
Definition str_truthy (s : pystr) : bool :=
  match s with [] => false | _ :: _ => true end.

(** A message "consists only of whitespace": [s.isspace()] or [s == ""]. *)
Definition blank (s : pystr) : bool := forallb isspace s.

(** [os.path.join(a, b)] on POSIX. *)
Definition os_path_join (a b : pystr) : pystr :=
  match b with
  | 0x2F :: _ => b
  | _ =>
    match rev a with
    | [] => b
    | 0x2F :: _ => a ++ b
    | _ => a ++ 0x2F :: b
    end
  end.

(** [s * n]. *)
Fixpoint str_repeat (s : pystr) (n : nat) : pystr :=
  match n with
  | O => []
  | S n' => s ++ str_repeat s n'
  end.

(** [s[:n]] and [s[-n:]], for a positive literal [n]: the first [n] and the
    last [n] characters, the whole string when it is shorter. *)
Definition slice_to (s : pystr) (n : nat) : pystr := firstn n s.

Definition slice_last (s : pystr) (n : nat) : pystr :=
  skipn (List.length s - n) s.

End PyStr.
Import PyStr.

(* ================================================================== *)
(** ** Python values, exceptions and files *)
(* ================================================================== *)

(** What [json.load] and [request.json] produce and what [jsonify] takes.
    A [dict] keeps its items in insertion order; its keys are distinct.
    Numbers are the integral ones. *)
Inductive json : Type :=
| JNull
| JBool (b : bool)
| JInt (z : Z)
| JStr (s : pystr)
| JList (l : list json)
| JDict (kvs : list (pystr * json)).

(** The exceptions that the code under study can meet.  All of them are
    subclasses of [Exception]. *)
Inductive exn : Type :=
| FileNotFoundError
| IsADirectoryError
| PermissionError
| OSError                      (* any other [OSError], e.g. no space left *)
| UnicodeDecodeError
| JSONDecodeError
| AttributeError
| IndexError
| ClientError (detail : pystr) (* raised by the OpenAI client library *).

Inductive result (A : Type) : Type :=
| Ret (a : A)
| Raise (e : exn).
Arguments Ret {A} a.
Arguments Raise {A} e.

Definition is_FileNotFoundError (e : exn) : bool :=
  match e with FileNotFoundError => true | _ => false end.

(** [bool(v)]. *)
Definition truthy (v : json) : bool :=
  match v with
  | JNull => false
  | JBool b => b
  | JInt z => negb (Z.eqb z 0)
  | JStr s => str_truthy s
  | JList l => match l with [] => false | _ => true end
  | JDict kvs => match kvs with [] => false | _ => true end
  end.

Fixpoint lookup (key : pystr) (kvs : list (pystr * json)) : option json :=
  match kvs with
  | [] => None
  | (k, v) :: rest => if str_eqb k key then Some v else lookup key rest
  end.

(** [d.get(key, default)]: only a [dict] has the method among JSON values. *)
Definition get (d : json) (key : pystr) (default : json) : result json :=
  match d with
  | JDict kvs =>
    Ret (match lookup key kvs with Some v => v | None => default end)
  | _ => Raise AttributeError
  end.

(** [v.strip()]: only a [str] has the method among JSON values. *)
Definition strip_method (v : json) : result pystr :=
  match v with
  | JStr s => Ret (strip s)
  | _ => Raise AttributeError
  end.

(** One path of the file system.  A regular file is either open to the
    server, to read and to write alike, or closed to it; files that can be
    read but not written, or written but not read, have no state here and
    no statement below speaks about them. *)
Inductive entry (A : Type) : Type :=
| Missing                              (* nothing there *)
| Directory                            (* a directory *)
| Regular (access : bool) (data : A)   (* a regular file; [access]: the
                                          server may open it, to read
                                          and to write alike *).
Arguments Missing {A}.
Arguments Directory {A}.
Arguments Regular {A} access data.

(** A file opened with [encoding='utf-8'], as [file.read()] sees it. *)
Inductive text_view : Type :=
| NotUtf8
| Text (s : pystr).

(** The same file as [json.load] sees it. *)
Inductive json_view : Type :=
| BadBytes                 (* not UTF-8 *)
| BadJson                  (* text that is not a JSON document *)
| Document (j : json).

Record fs : Type := {
  config_json : entry json_view;          (* CONFIG_FILE = 'config.json' *)
  text_files : pystr -> entry text_view;  (* the paths read as plain text *)
  cwd_writable : bool;                    (* may create and unlink in the cwd *)
  disk_full : bool                        (* writing data fails *)
}.

Definition set_config (d : fs) (e : entry json_view) : fs :=
  {| config_json := e; text_files := text_files d;
     cwd_writable := cwd_writable d; disk_full := disk_full d |}.

(* ================================================================== *)
(** ** The OpenAI client, the HTTP response and the world *)
(* ================================================================== *)

(** An [OpenAI(api_key=..., base_url=...)] object. *)
Record client : Type := { api_key : pystr; base_url : pystr }.

(** One element of [messages]. *)
Record message : Type := { role : pystr; content : json }.

(** What [chat.completions.create] returns, reduced to what the server
    reads: [message.content] of each element of [choices]; [None] when the
    remote sends no content. *)
Definition completion := list (option pystr).

(** What a handler returns: [jsonify(body)] with a status (200 when the
    handler gives none). *)
Record response : Type := { body : json; status : Z }.

Inductive event : Type :=
| Printed (line : pystr)
| NewClient (c : client)
| Completion (c : client) (model : pystr) (messages : list message)
    (max_tokens : Z).

Record world : Type := {
  disk : fs;
  contexto : pystr;        (* the module-level variable *)
  trace : list event       (* oldest first *)
}.

(** What the program takes from outside. *)
Record runtime : Type := {
  str_of : exn -> pystr;                         (* [str(e)] *)
  script_dir : pystr;  (* [os.path.dirname(os.path.abspath(__file__))] *)
  OpenAI_init : pystr -> pystr -> option exn;    (* [None]: constructed *)
  create : client -> pystr -> list message -> Z -> result completion
}.

(* ================================================================== *)
(** ** The monad of the server code *)
(* ================================================================== *)

Definition M (A : Type) : Type := world -> world * result A.

Definition ret {A} (a : A) : M A := fun w => (w, Ret a).

Definition raise {A} (e : exn) : M A := fun w => (w, Raise e).

Definition bind {A B} (c : M A) (k : A -> M B) : M B :=
  fun w =>
    match c w with
    | (w', Ret a) => k a w'
    | (w', Raise e) => (w', Raise e)
    end.

Definition lift {A} (r : result A) : M A := fun w => (w, r).

(** [try: c  except E as e: h e], where [catches] tells whether [E] covers
    the exception.  Effects made before the exception stay. *)
Definition try_except {A} (catches : exn -> bool) (c : M A) (h : exn -> M A)
  : M A :=
  fun w =>
    match c w with
    | (w', Ret a) => (w', Ret a)
    | (w', Raise e) => if catches e then h e w' else (w', Raise e)
    end.

(** [except Exception]. *)
Definition Exception (e : exn) : bool := true.

Declare Scope py_scope.
Delimit Scope py_scope with py.
Notation "x <- c ;; k" := (bind c (fun x => k))
  (at level 61, c at next level, right associativity) : py_scope.
Notation "c ;; k" := (bind c (fun _ => k))
  (at level 61, right associativity) : py_scope.
Open Scope py_scope.

Definition get_disk : M fs := fun w => (w, Ret (disk w)).

Definition put_disk (d : fs) : M unit :=
  fun w => ({| disk := d; contexto := contexto w; trace := trace w |}, Ret tt).

Definition get_contexto : M pystr := fun w => (w, Ret (contexto w)).

Definition put_contexto (c : pystr) : M unit :=
  fun w => ({| disk := disk w; contexto := c; trace := trace w |}, Ret tt).

Definition emit (e : event) : M unit :=
  fun w => ({| disk := disk w; contexto := contexto w;
               trace := trace w ++ [e] |}, Ret tt).

(* ================================================================== *)
(** ** Library calls made by the server *)
(* ================================================================== *)

(** [print(line)], on a standard output that accepts the line.  An output
    stream that rejects a line (closed, or unable to encode a character) is
    not modelled; what is said about printed lines is about their content. *)
Definition print (line : pystr) : M unit := emit (Printed line).

(** [os.path.exists(CONFIG_FILE)]. *)
Definition os_path_exists_config : M bool :=
  d <- get_disk ;;
  ret (match config_json d with Missing => false | _ => true end).

(** [with open(CONFIG_FILE, 'r', encoding='utf-8') as f: json.load(f)]. *)
Definition json_load_config : M json :=
  d <- get_disk ;;
  match config_json d with
  | Missing => raise FileNotFoundError
  | Directory => raise IsADirectoryError
  | Regular false _ => raise PermissionError
  | Regular true BadBytes => raise UnicodeDecodeError
  | Regular true BadJson => raise JSONDecodeError
  | Regular true (Document j) => ret j
  end.

(** [with open(CONFIG_FILE, 'w', encoding='utf-8') as f:
       json.dump(config, f, indent=4)].
    Opening creates or truncates the file; the text is written afterwards,
    so a write that fails leaves a file that is not a document. *)
Definition json_dump_config (config : json) : M unit :=
  d <- get_disk ;;
  match config_json d with
  | Directory => raise IsADirectoryError
  | Regular false _ => raise PermissionError
  | Missing =>
    if cwd_writable d then
      if disk_full d then
        put_disk (set_config d (Regular true BadJson)) ;; raise OSError
      else put_disk (set_config d (Regular true (Document config)))
    else raise PermissionError
  | Regular true _ =>
    if disk_full d then
      put_disk (set_config d (Regular true BadJson)) ;; raise OSError
    else put_disk (set_config d (Regular true (Document config)))
  end.

(** [os.remove(CONFIG_FILE)]. *)
Definition os_remove_config : M unit :=
  d <- get_disk ;;
  match config_json d with
  | Missing => raise FileNotFoundError
  | Directory => raise IsADirectoryError
  | Regular _ _ =>
    if cwd_writable d then put_disk (set_config d Missing)
    else raise PermissionError
  end.

(** [with open(path, 'r', encoding='utf-8') as file: file.read()]. *)
Definition read_text (path : pystr) : M pystr :=
  d <- get_disk ;;
  match text_files d path with
  | Missing => raise FileNotFoundError
  | Directory => raise IsADirectoryError
  | Regular false _ => raise PermissionError
  | Regular true NotUtf8 => raise UnicodeDecodeError
  | Regular true (Text s) => ret s
  end.

(** [response.choices[0].message.content]. *)
Definition first_choice_content (r : completion) : result (option pystr) :=
  match r with
  | [] => Raise IndexError
  | c :: _ => Ret c
  end.

(** A Python [str] or [None] as a JSON value. *)
Definition json_of_content (c : option pystr) : json :=
  match c with Some s => JStr s | None => JNull end.

(** [jsonify(d)] alone, and [jsonify(d), code]. *)
Definition jsonify (d : json) : response := {| body := d; status := 200 |}.

Definition with_status (r : response) (code : Z) : response :=
  {| body := body r; status := code |}.

(* ================================================================== *)
(** ** deepseek.py *)
(* ================================================================== *)

Section Server.

Variable rt : runtime.

Definition CONTEXTO_FILE : pystr :=
  os_path_join (script_dir rt) (py "contexto.txt").

(** [OpenAI(api_key=k, base_url=u)]. *)
Definition OpenAI (k u : pystr) : M client :=
  let c := {| api_key := k; base_url := u |} in
  emit (NewClient c) ;;
  match OpenAI_init rt k u with
  | None => ret c
  | Some e => raise e
  end.

(** [c.chat.completions.create(model=..., messages=..., max_tokens=...)]. *)
Definition chat_completions_create (c : client) (model : pystr)
    (messages : list message) (max_tokens : Z) : M completion :=
  emit (Completion c model messages max_tokens) ;;
  lift (create rt c model messages max_tokens).

Definition carregar_api_key : M pystr :=
  try_except Exception
    (present <- os_path_exists_config ;;
     if present then
       config <- json_load_config ;;
       v <- lift (get config (py "api_key") (JStr (py ""))) ;;
       lift (strip_method v)
     else ret (py ""))
    (fun e =>
       print (py "Erro ao carregar API Key: " ++ str_of rt e) ;;
       ret (py "")).

Definition salvar_api_key (api_key : pystr) : M bool :=
  try_except Exception
    (let config := JDict [(py "api_key", JStr api_key)] in
     json_dump_config config ;;
     ret true)
    (fun e =>
       print (py "Erro ao salvar API Key: " ++ str_of rt e) ;;
       ret false).

Definition carregar_contexto (caminho_arquivo : pystr) : M pystr :=
  try_except is_FileNotFoundError
    (s <- read_text caminho_arquivo ;;
     ret (strip s))
    (fun _ => ret (py "Você é um assistente útil.")).

Definition criar_cliente : M (option client) :=
  api_key <- carregar_api_key ;;
  if negb (str_truthy api_key) then ret None
  else
    try_except Exception
      (c <- OpenAI api_key (py "https://api.deepseek.com") ;;
       ret (Some c))
      (fun e =>
         print (py "Erro ao criar cliente: " ++ str_of rt e) ;;
         ret None).

(** The module body: [contexto = carregar_contexto(CONTEXTO_FILE)], run once
    when the server starts, on a world whose [contexto] is not yet bound. *)
Definition load_module : M unit :=
  c <- carregar_contexto CONTEXTO_FILE ;;
  put_contexto c.

Definition error_body (text : pystr) : json := JDict [(py "error", JStr text)].

(** [GET /check_api_key]. *)
Definition check_api_key : M response :=
  api_key <- carregar_api_key ;;
  ret (jsonify (JDict
    [(py "configured", JBool (str_truthy api_key));
     (py "message",
      JStr (if str_truthy api_key then py "API Key configurada"
            else py "API Key não configurada"))])).

(** [POST /save_api_key]; [data] is [request.json]. *)
Definition save_api_key (data : json) : M response :=
  v <- lift (get data (py "api_key") (JStr (py ""))) ;;
  api_key <- lift (strip_method v) ;;
  if negb (str_truthy api_key) then
    ret (with_status (jsonify (error_body (py "API Key não fornecida"))) 400)
  else if negb (startswith api_key (py "sk-")) then
    ret (with_status
           (jsonify (error_body (py "Formato de API Key inválido"))) 400)
  else
    early <-
      try_except Exception
        (test_client <- OpenAI api_key (py "https://api.deepseek.com") ;;
         test_response <-
           chat_completions_create test_client (py "deepseek-chat")
             [{| role := py "user"; content := JStr (py "test") |}] 10 ;;
         ret None)
        (fun e =>
           ret (Some (with_status
                        (jsonify (error_body
                                    (py "API Key inválida: " ++ str_of rt e)))
                        400))) ;;
    match early with
    | Some r => ret r
    | None =>
      saved <- salvar_api_key api_key ;;
      if saved then
        ret (jsonify (JDict
          [(py "success", JBool true);
           (py "message", JStr (py "API Key salva com sucesso"))]))
      else
        ret (with_status
               (jsonify (error_body (py "Erro ao salvar API Key"))) 500)
    end.

(** [POST /chat]; [data] is [request.json]. *)
Definition chat (data : json) : M response :=
  cl <- criar_cliente ;;
  match cl with
  | None =>
    ret (with_status
           (jsonify (error_body
              (py "API Key não configurada. Por favor, configure primeiro.")))
           401)
  | Some cl =>
    user_text <- lift (get data (py "message") (JStr (py ""))) ;;
    if negb (truthy user_text) then
      ret (with_status (jsonify (error_body (py "Mensagem vazia"))) 400)
    else
      ctx <- get_contexto ;;
      let messages :=
        [{| role := py "system"; content := JStr ctx |};
         {| role := py "user"; content := user_text |}] in
      try_except Exception
        (resp <- chat_completions_create cl (py "deepseek-chat") messages
                   2000 ;;
         reply <- lift (first_choice_content resp) ;;
         ret (jsonify (JDict [(py "reply", json_of_content reply)])))
        (fun e => ret (with_status (jsonify (error_body (str_of rt e))) 500))
  end.

(** [POST /reset_context]. *)
Definition reset_context : M response :=
  c <- carregar_contexto CONTEXTO_FILE ;;
  put_contexto c ;;
  ret (jsonify (JDict
    [(py "status", JStr (py "success"));
     (py "message", JStr (py "Contexto reiniciado"))])).

(** [POST /delete_api_key]. *)
Definition delete_api_key : M response :=
  try_except Exception
    (present <- os_path_exists_config ;;
     (if present then os_remove_config else ret tt) ;;
     ret (jsonify (JDict
       [(py "success", JBool true);
        (py "message", JStr (py "API Key removida com sucesso"))])))
    (fun e => ret (with_status (jsonify (error_body (str_of rt e))) 500)).

(** The block under [if __name__ == "__main__":], up to [app.run], which
    hands control to Flask. *)
Definition main_banner : M unit :=
  print (str_repeat (py "=") 50) ;;
  print (py "🚀 Servidor Flask iniciado!") ;;
  print (str_repeat (py "=") 50) ;;
  api_key <- carregar_api_key ;;
  (if str_truthy api_key then
     print (py "✓ API Key encontrada!") ;;
     print (py "✓ API Key: " ++ slice_to api_key 10 ++ py "..."
            ++ slice_last api_key 4)
   else
     print (py "⚠ Nenhuma API Key configurada") ;;
     print (py "📝 Acesse a tela de configuração para adicionar sua API Key")) ;;
  print (str_repeat (py "=") 50) ;;
  print (py "🌐 Servidor rodando em: http://127.0.0.1:5000") ;;
  print (str_repeat (py "=") 50).

End Server.

(* ================================================================== *)
(** ** Concrete runtimes and worlds *)
(* ================================================================== *)

Module Scenario.

(** A rendering of [str(e)] for the runs below. *)
Definition render (e : exn) : pystr :=
  match e with
  | FileNotFoundError => py "[Errno 2] No such file or directory"
  | IsADirectoryError => py "[Errno 21] Is a directory"
  | PermissionError => py "[Errno 13] Permission denied"
  | OSError => py "[Errno 28] No space left on device"
  | UnicodeDecodeError => py "'utf-8' codec can't decode byte"
  | JSONDecodeError => py "Expecting value"
  | AttributeError => py "object has no attribute"
  | IndexError => py "list index out of range"
  | ClientError detail => detail
  end.

(** The remote API mocked to succeed with one choice, "hello back". *)
Definition remote_up : runtime :=
  {| str_of := render;
     script_dir := py "/srv/app";
     OpenAI_init := fun _ _ => None;
     create := fun _ _ _ _ => Ret [Some (py "hello back")] |}.

(** The remote API rejecting every call. *)
Definition remote_down : runtime :=
  {| str_of := render;
     script_dir := py "/srv/app";
     OpenAI_init := fun _ _ => None;
     create := fun _ _ _ _ =>
       Raise (ClientError (py "Error code: 401")) |}.

(** A disk with the given credential file and the given [contexto.txt]. *)
Definition disk_of (cfg : entry json_view) (ctx : entry text_view) : fs :=
  {| config_json := cfg;
     text_files := fun p =>
       if str_eqb p (py "/srv/app/contexto.txt") then ctx else Missing;
     cwd_writable := true;
     disk_full := false |}.

Definition world_of (cfg : entry json_view) (ctx : entry text_view) : world :=
  {| disk := disk_of cfg ctx; contexto := py "You are Bob."; trace := [] |}.

Definition key_file (k : pystr) : entry json_view :=
  Regular true (Document (JDict [(py "api_key", JStr k)])).

Definition bob_txt : entry text_view := Regular true (Text (py "You are Bob.")).

(** The same file, which the server may not open. *)
Definition locked_txt : entry text_view :=
  Regular false (Text (py "You are Bob.")).

Definition message_body (m : pystr) : json := JDict [(py "message", JStr m)].

Definition key_body (k : pystr) : json := JDict [(py "api_key", JStr k)].

(** The remote API answering with no choice at all. *)
Definition remote_mute : runtime :=
  {| str_of := render;
     script_dir := py "/srv/app";
     OpenAI_init := fun _ _ => None;
     create := fun _ _ _ _ => Ret [] |}.

(** A world whose disk is full. *)
Definition full_world (cfg : entry json_view) : world :=
  {| disk := {| config_json := cfg; text_files := fun _ => Missing;
                cwd_writable := true; disk_full := true |};
     contexto := py "You are Bob."; trace := [] |}.

End Scenario.

(* ================================================================== *)
(** ** Observations on worlds and traces *)
(* ================================================================== *)

(** The world [w] after the events [evs], files and [contexto] untouched. *)
Definition logged (w : world) (evs : list event) : world :=
  {| disk := disk w; contexto := contexto w; trace := trace w ++ evs |}.

(** The world [w] with the global [contexto] rebound. *)
Definition rebound (w : world) (c : pystr) : world :=
  {| disk := disk w; contexto := c; trace := trace w |}.

(** The world [w] with the credential path holding [e]. *)
Definition with_config (w : world) (e : entry json_view) : world :=
  {| disk := set_config (disk w) e; contexto := contexto w;
     trace := trace w |}.

Definition is_print (ev : event) : bool :=
  match ev with Printed _ => true | _ => false end.

(** A call to the remote completion API. *)
Definition is_completion (ev : event) : bool :=
  match ev with Completion _ _ _ _ => true | _ => false end.

(** The credential as a reader of the disk gets it: the stripped [api_key]
    string of a readable document, and the empty string in any other state. *)
Definition stored_key (d : fs) : pystr :=
  match config_json d with
  | Regular true (Document (JDict kvs)) =>
    match lookup (py "api_key") kvs with
    | Some (JStr k) => strip k
    | _ => py ""
    end
  | _ => py ""
  end.

Abbreviation DEEPSEEK_URL := (py "https://api.deepseek.com") (only parsing).

(** The credential file as [salvar_api_key] leaves it when it succeeds. *)
Definition key_document (k : pystr) : entry json_view :=
  Regular true (Document (JDict [(py "api_key", JStr k)])).

(** The client that the server builds for a key. *)
Definition client_for (k : pystr) : client :=
  {| api_key := k; base_url := DEEPSEEK_URL |}.

(** The call by which [save_api_key] tests a key. *)
Definition test_call (k : pystr) : event :=
  Completion (client_for k) (py "deepseek-chat")
    [{| role := py "user"; content := JStr (py "test") |}] 10.

(** The two messages of a chat exchange. *)
Definition chat_messages (ctx : pystr) (user_text : json) : list message :=
  [{| role := py "system"; content := JStr ctx |};
   {| role := py "user"; content := user_text |}].

Definition success_response (text : pystr) : response :=
  jsonify (JDict [(py "success", JBool true); (py "message", JStr text)]).

(** The answer of [reset_context]. *)
Definition reset_answer : response :=
  jsonify (JDict [(py "status", JStr (py "success"));
                  (py "message", JStr (py "Contexto reiniciado"))]).

(** The answer of [check_api_key]. *)
Definition check_answer (configured : bool) : response :=
  jsonify (JDict
    [(py "configured", JBool configured);
     (py "message",
      JStr (if configured then py "API Key configurada"
            else py "API Key não configurada"))]).

Definition error_response (text : pystr) (code : Z) : response :=
  {| body := JDict [(py "error", JStr text)]; status := code |}.

(** Whether [open(CONFIG_FILE, 'w')] followed by [json.dump] goes through:
    the file can be created in the directory or is open to the server, and
    the data can be written. *)
Definition config_writable (d : fs) : bool :=
  match config_json d with
  | Missing => cwd_writable d && negb (disk_full d)
  | Directory => false
  | Regular access _ => access && negb (disk_full d)
  end.

(** The number of calls to the remote API among some events. *)
Definition remote_calls (evs : list event) : nat :=
  List.length (filter is_completion evs).

(** What an event of one [chat] request may be, for the stored key [key] and
    the context [ctx]: a print, the construction of the client for [key], or
    a call by that client with the fixed model, the cap of 2000 tokens and
    the two messages of the exchange. *)
Definition chat_event (key ctx : pystr) (ev : event) : Prop :=
  match ev with
  | Printed _ => True
  | NewClient c => c = client_for key
  | Completion c model msgs n =>
    c = client_for key /\ model = py "deepseek-chat" /\ n = 2000%Z /\
    exists m, msgs = chat_messages ctx m
  end.

(** The line of the banner that shows the key. *)
Definition key_line (key : pystr) : pystr :=
  py "✓ API Key: " ++ slice_to key 10 ++ py "..." ++ slice_last key 4.

Arguments py : simpl never.

(* ================================================================== *)
(** ** Proof steps used more than once *)
(* ================================================================== *)

(** Open a world down to the state of the credential path. *)
Ltac crush_world w :=
  let d := fresh "d" in
  destruct w as [d ? ?]; destruct d as [cfg ? ? ?].

(** A run that printed nothing, and a run that printed and returned the
    empty key. *)
Ltac quiet_run H :=
  exists []; rewrite H; split;
  [reflexivity | split; [constructor | reflexivity]].

Ltac failed_run :=
  eexists; split;
  [reflexivity
  | split; [repeat constructor | let H := fresh in intros H; discriminate H]].

(* ================================================================== *)
(** ** Strings *)
(* ================================================================== *)

Lemma str_eqb_refl (s : pystr) : str_eqb s s = true.
Proof.
  induction s as [|c s IH]; simpl; [reflexivity|].
  now rewrite N.eqb_refl.
Qed.

Lemma rstrip_idem (s : pystr) : rstrip (rstrip s) = rstrip s.
Proof.
  induction s as [|c s IH]; simpl; [reflexivity|].
  destruct (rstrip s) as [|c' s'] eqn:E.
  - destruct (isspace c) eqn:Ec; simpl; [reflexivity|now rewrite Ec].
  - change (rstrip (c :: c' :: s')) with
      (match rstrip (c' :: s') with
       | [] => if isspace c then [] else [c]
       | t' => c :: t'
       end).
    now rewrite IH.
Qed.

(** [lstrip] leaves a string that does not start with whitespace. *)
Lemma lstrip_head (s : pystr) :
  match lstrip s with [] => True | c :: _ => isspace c = false end.
Proof.
  induction s as [|c s IH]; simpl; [exact I|].
  destruct (isspace c) eqn:Ec; [exact IH|exact Ec].
Qed.

(** [rstrip] keeps the first character of such a string. *)
Lemma rstrip_keeps_head (c : N) (s : pystr) :
  isspace c = false -> exists t, rstrip (c :: s) = c :: t.
Proof.
  intros Hc. simpl. destruct (rstrip s) as [|c' s'].
  - rewrite Hc. now exists [].
  - now exists (c' :: s').
Qed.

Lemma lstrip_fixed (c : N) (t : pystr) :
  isspace c = false -> lstrip (c :: t) = c :: t.
Proof. intros Hc. simpl. now rewrite Hc. Qed.

Lemma strip_idem (s : pystr) : strip (strip s) = strip s.
Proof.
  unfold strip. pose proof (lstrip_head s) as H.
  destruct (lstrip s) as [|c t] eqn:E; [reflexivity|].
  destruct (rstrip_keeps_head c t H) as [u Hu].
  rewrite Hu, (lstrip_fixed c u H), <- Hu. apply rstrip_idem.
Qed.

(* ================================================================== *)
(** ** Worlds *)
(* ================================================================== *)

Lemma logged_nil (w : world) : logged w [] = w.
Proof. destruct w; unfold logged; simpl. now rewrite app_nil_r. Qed.

Lemma logged_logged (w : world) (a b : list event) :
  logged (logged w a) b = logged w (a ++ b).
Proof. unfold logged; simpl. now rewrite app_assoc. Qed.

Lemma emit_run (ev : event) (w : world) : emit ev w = (logged w [ev], Ret tt).
Proof. reflexivity. Qed.

(* ================================================================== *)
(** ** The credential store *)
(* ================================================================== *)

(** The loader returns [stored_key], raises nothing, changes no file, and
    prints exactly when it met an exception, in which case the key is empty. *)
Lemma carregar_api_key_run (rt : runtime) (w : world) :
  exists log,
    carregar_api_key rt w = (logged w log, Ret (stored_key (disk w))) /\
    Forall (fun ev => is_print ev = true) log /\
    (str_truthy (stored_key (disk w)) = true -> log = []).
Proof.
  pose proof (logged_nil w) as Hnil.
  crush_world w.
  destruct cfg as [| |[|] [| |j]];
    try (quiet_run Hnil); try failed_run.
  destruct j as [| | | |l|kvs]; try failed_run.
  unfold carregar_api_key, stored_key, try_except, bind, os_path_exists_config,
    json_load_config, get_disk, ret, lift, get; simpl.
  destruct (lookup (py "api_key") kvs) as [[| | |k| |]|]; simpl;
    try (quiet_run Hnil); try failed_run.
Qed.

Lemma stored_key_cases (d : fs) :
  stored_key d =
  match config_json d with
  | Missing => py ""
  | Directory => py ""
  | Regular false _ => py ""
  | Regular true BadBytes => py ""
  | Regular true BadJson => py ""
  | Regular true (Document (JDict kvs)) =>
    match lookup (py "api_key") kvs with
    | None => py ""
    | Some (JStr k) => strip k
    | Some _ => py ""
    end
  | Regular true (Document _) => py ""
  end.
Proof.
  unfold stored_key.
  destruct (config_json d) as [| |[|] [| |[| | | | |kvs]]]; reflexivity.
Qed.


(** The store's [save] never raises; when it answers [True] the file holds
    exactly the given key and nothing else has changed; when it answers
    [False] it has printed, and no readable key is left behind by it. *)
Lemma salvar_api_key_run (rt : runtime) (k : pystr) (w : world) :
  exists w1 saved,
    salvar_api_key rt k w = (w1, Ret saved) /\
    contexto w1 = contexto w /\
    (saved = true ->
     w1 = with_config w (key_document k)) /\
    (saved = false ->
     (exists e,
        trace w1 =
        trace w ++ [Printed (py "Erro ao salvar API Key: " ++ str_of rt e)])
     /\ (config_json (disk w1) = config_json (disk w)
         \/ config_json (disk w1) = Regular true BadJson)).
Proof.
  crush_world w.
  unfold salvar_api_key, try_except, bind, json_dump_config, get_disk,
    put_disk, raise, ret, print, emit, Exception; simpl.
  destruct cfg as [| |[|] dat]; simpl;
    try (destruct cwd_writable0); try (destruct disk_full0); simpl;
    eexists; eexists; (split; [reflexivity|]); simpl;
    (split; [reflexivity|]);
    (split; [intros H; first [discriminate H | reflexivity]
            |intros H; first [discriminate H
                             | split; [eexists; reflexivity | auto]]]).
Qed.

(* ================================================================== *)
(** ** The client factory *)
(* ================================================================== *)

(** When the file can be written, the store writes the key and answers
    [True], printing nothing. *)
Lemma salvar_api_key_writable (rt : runtime) (k : pystr) (w : world) :
  config_writable (disk w) = true ->
  salvar_api_key rt k w = (with_config w (key_document k), Ret true).
Proof.
  crush_world w. unfold config_writable. simpl.
  unfold salvar_api_key, try_except, bind, json_dump_config, get_disk,
    put_disk, raise, ret, print, emit, Exception, with_config; simpl.
  destruct cfg as [| |[|] dat]; simpl;
    try (destruct cwd_writable0); try (destruct disk_full0); simpl;
    intros H; first [discriminate H | reflexivity].
Qed.

(** When it cannot, the store answers [False] after printing the error, and
    the file does not hold the key as its document. *)
Lemma salvar_api_key_unwritable (rt : runtime) (k : pystr) (w : world) :
  config_writable (disk w) = false ->
  exists w1 e,
    salvar_api_key rt k w = (w1, Ret false) /\
    contexto w1 = contexto w /\
    trace w1 =
    trace w ++ [Printed (py "Erro ao salvar API Key: " ++ str_of rt e)] /\
    (config_json (disk w1) = config_json (disk w) \/
     config_json (disk w1) = Regular true BadJson) /\
    config_json (disk w1) <> key_document k.
Proof.
  crush_world w. unfold config_writable, key_document. simpl.
  unfold salvar_api_key, try_except, bind, json_dump_config, get_disk,
    put_disk, raise, ret, print, emit, Exception; simpl.
  destruct cfg as [| |[|] dat]; simpl;
    try (destruct cwd_writable0); try (destruct disk_full0); simpl;
    intros H; try discriminate H;
    eexists; eexists; (split; [reflexivity|]); simpl;
    (split; [reflexivity|]); (split; [reflexivity|]);
    (split; [auto|discriminate]).
Qed.

Lemma OpenAI_run (rt : runtime) (k u : pystr) (w : world) :
  OpenAI rt k u w =
  (logged w [NewClient {| api_key := k; base_url := u |}],
   match OpenAI_init rt k u with
   | None => Ret {| api_key := k; base_url := u |}
   | Some e => Raise e
   end).
Proof.
  unfold OpenAI, bind. rewrite emit_run.
  destruct (OpenAI_init rt k u); reflexivity.
Qed.

Lemma chat_completions_create_run (rt : runtime) (c : client) (model : pystr)
    (msgs : list message) (n : Z) (w : world) :
  chat_completions_create rt c model msgs n w =
  (logged w [Completion c model msgs n], create rt c model msgs n).
Proof. reflexivity. Qed.

(** The factory: no client without a stored key; with one, the constructor
    is called on the stored key and the fixed endpoint, and its failure is
    printed and swallowed. *)
Lemma criar_cliente_run (rt : runtime) (w : world) :
  let key := stored_key (disk w) in
  exists log,
    Forall (fun ev => is_print ev = true) log /\
    criar_cliente rt w =
    if str_truthy key then
      match OpenAI_init rt key DEEPSEEK_URL with
      | None => (logged w [NewClient (client_for key)],
                 Ret (Some (client_for key)))
      | Some e =>
        (logged w [NewClient (client_for key);
                   Printed (py "Erro ao criar cliente: " ++ str_of rt e)],
         Ret None)
      end
    else (logged w log, Ret None).
Proof.
  intros key.
  destruct (carregar_api_key_run rt w) as (log & Hrun & Hlog & Hquiet).
  exists log. split; [exact Hlog|].
  unfold criar_cliente, bind. rewrite Hrun. fold key in Hquiet |- *.
  destruct (str_truthy key) eqn:Hkey; simpl; [|reflexivity].
  rewrite (Hquiet eq_refl), logged_nil.
  unfold try_except, bind. rewrite OpenAI_run.
  change {| api_key := key; base_url := DEEPSEEK_URL |} with (client_for key).
  destruct (OpenAI_init rt key DEEPSEEK_URL); [|reflexivity].
  unfold logged; simpl. now rewrite <- app_assoc.
Qed.

(** What a successful construction tells. *)
Lemma criar_cliente_some (rt : runtime) (w w1 : world) (cl : client) :
  criar_cliente rt w = (w1, Ret (Some cl)) ->
  cl = client_for (stored_key (disk w)) /\
  w1 = logged w [NewClient cl] /\
  str_truthy (stored_key (disk w)) = true.
Proof.
  intros H. destruct (criar_cliente_run rt w) as (log & _ & Hrun).
  rewrite Hrun in H. clear Hrun.
  destruct (str_truthy (stored_key (disk w))); [|discriminate H].
  destruct (OpenAI_init rt _ DEEPSEEK_URL); [discriminate H|].
  injection H as Hw Hc. subst. auto.
Qed.

Lemma criar_cliente_none (rt : runtime) (w w1 : world) :
  criar_cliente rt w = (w1, Ret None) ->
  disk w1 = disk w /\ contexto w1 = contexto w /\
  exists log, w1 = logged w log /\
              Forall (fun ev => is_completion ev = false) log.
Proof.
  intros H. destruct (criar_cliente_run rt w) as (log & Hlog & Hrun).
  rewrite Hrun in H. clear Hrun.
  destruct (str_truthy (stored_key (disk w))).
  - destruct (OpenAI_init rt _ DEEPSEEK_URL); [|discriminate H].
    injection H as Hw. subst. repeat split.
    eexists; split; [reflexivity|]. repeat constructor.
  - injection H as Hw. subst. repeat split.
    exists log; split; [reflexivity|].
    eapply Forall_impl; [|exact Hlog].
    intros [] Hp; now try discriminate Hp.
Qed.

Lemma carregar_api_key_document (rt : runtime) (w : world) (k : pystr) :
  config_json (disk w) = key_document k ->
  carregar_api_key rt w = (w, Ret (strip k)).
Proof.
  crush_world w. simpl. intros ->.
  unfold carregar_api_key, try_except, bind, os_path_exists_config,
    json_load_config, get_disk, ret, lift, get; simpl.
  rewrite ?str_eqb_refl. reflexivity.
Qed.

Lemma carregar_api_key_missing (rt : runtime) (w : world) :
  config_json (disk w) = Missing ->
  carregar_api_key rt w = (w, Ret (py "")).
Proof. crush_world w. simpl. intros ->. reflexivity. Qed.

Lemma check_api_key_run (rt : runtime) (w : world) :
  exists log,
    check_api_key rt w =
      (logged w log, Ret (check_answer (str_truthy (stored_key (disk w))))) /\
    Forall (fun ev => is_print ev = true) log.
Proof.
  destruct (carregar_api_key_run rt w) as (log & Hrun & Hlog & _).
  exists log. split; [|exact Hlog].
  unfold check_api_key, bind. now rewrite Hrun.
Qed.

(* ================================================================== *)
(** ** The handlers, branch by branch *)
(* ================================================================== *)

(** [save_api_key] on a body whose [api_key] is a string (or is absent). *)
Lemma save_api_key_run (rt : runtime) (data : json) (k : pystr) (w : world) :
  get data (py "api_key") (JStr (py "")) = Ret (JStr k) ->
  let key := strip k in
  let w1 := logged w [NewClient (client_for key)] in
  let w2 := logged w [NewClient (client_for key); test_call key] in
  let invalid e :=
    error_response (py "API Key inválida: " ++ str_of rt e) 400 in
  save_api_key rt data w =
  if negb (str_truthy key) then
    (w, Ret (error_response (py "API Key não fornecida") 400))
  else if negb (startswith key (py "sk-")) then
    (w, Ret (error_response (py "Formato de API Key inválido") 400))
  else
    match OpenAI_init rt key DEEPSEEK_URL with
    | Some e => (w1, Ret (invalid e))
    | None =>
      match create rt (client_for key) (py "deepseek-chat")
              [{| role := py "user"; content := JStr (py "test") |}] 10 with
      | Raise e => (w2, Ret (invalid e))
      | Ret _ =>
        match salvar_api_key rt key w2 with
        | (w3, Ret true) =>
          (w3, Ret (success_response (py "API Key salva com sucesso")))
        | (w3, Ret false) =>
          (w3, Ret (error_response (py "Erro ao salvar API Key") 500))
        | (w3, Raise e) => (w3, Raise e)
        end
      end
    end.
Proof.
  intros Hget key w1 w2 invalid.
  unfold save_api_key, bind at 1 2, lift. rewrite Hget.
  cbv beta iota. unfold strip_method. fold key.
  destruct (str_truthy key); cbv beta iota delta [negb]; [|reflexivity].
  destruct (startswith key (py "sk-")); cbv beta iota; [|reflexivity].
  unfold bind at 1, try_except, bind at 1. rewrite OpenAI_run.
  change {| api_key := key; base_url := DEEPSEEK_URL |} with (client_for key).
  fold w1.
  destruct (OpenAI_init rt key DEEPSEEK_URL) as [e|]; [reflexivity|].
  cbv beta iota. unfold bind at 1.
  rewrite chat_completions_create_run. unfold w1. rewrite logged_logged.
  change ([NewClient (client_for key)] ++ _) with
    [NewClient (client_for key); test_call key].
  fold w2.
  destruct (create rt (client_for key) _ _ 10) as [r|e]; [|reflexivity].
  cbv beta iota. unfold ret at 1, bind at 1.
  destruct (salvar_api_key rt key w2) as [w3 [[|]|e]]; reflexivity.
Qed.

(** [chat] when the factory gives no client. *)
Lemma chat_without_client (rt : runtime) (data : json) (w w1 : world) :
  criar_cliente rt w = (w1, Ret None) ->
  chat rt data w =
  (w1, Ret (error_response
              (py "API Key não configurada. Por favor, configure primeiro.")
              401)).
Proof. intros H. unfold chat, bind. now rewrite H. Qed.

(** [chat] when the factory gives a client. *)
Lemma chat_with_client (rt : runtime) (data : json) (w w1 : world)
    (cl : client) :
  criar_cliente rt w = (w1, Ret (Some cl)) ->
  chat rt data w =
  match get data (py "message") (JStr (py "")) with
  | Raise e => (w1, Raise e)
  | Ret v =>
    if truthy v then
      let msgs := chat_messages (contexto w) v in
      (logged w1 [Completion cl (py "deepseek-chat") msgs 2000],
       match create rt cl (py "deepseek-chat") msgs 2000 with
       | Raise e => Ret (error_response (str_of rt e) 500)
       | Ret [] => Ret (error_response (str_of rt IndexError) 500)
       | Ret (c :: _) => Ret (jsonify (JDict [(py "reply", json_of_content c)]))
       end)
    else (w1, Ret (error_response (py "Mensagem vazia") 400))
  end.
Proof.
  intros H.
  assert (Hctx : contexto w1 = contexto w).
  { destruct (criar_cliente_some rt w w1 cl H) as (_ & -> & _). reflexivity. }
  unfold chat, bind at 1. rewrite H. cbv beta iota.
  unfold bind at 1, lift.
  destruct (get data (py "message") (JStr (py ""))) as [v|e]; [|reflexivity].
  destruct (truthy v); cbv beta iota delta [negb]; [|reflexivity].
  unfold bind at 1, get_contexto, try_except, bind at 1.
  rewrite chat_completions_create_run, Hctx.
  unfold chat_messages.
  destruct (create rt cl _ _ 2000) as [[|c rest]|e]; reflexivity.
Qed.

(** [delete_api_key], by the state of the credential path. *)
Lemma delete_api_key_run (rt : runtime) (w : world) :
  delete_api_key rt w =
  match config_json (disk w) with
  | Missing =>
    (w, Ret (success_response (py "API Key removida com sucesso")))
  | Directory =>
    (w, Ret (error_response (str_of rt IsADirectoryError) 500))
  | Regular _ _ =>
    if cwd_writable (disk w) then
      (with_config w Missing,
       Ret (success_response (py "API Key removida com sucesso")))
    else (w, Ret (error_response (str_of rt PermissionError) 500))
  end.
Proof.
  crush_world w.
  unfold delete_api_key, try_except, bind, os_path_exists_config,
    os_remove_config, get_disk, put_disk, raise, ret; simpl.
  destruct cfg as [| |a dat]; try reflexivity.
  destruct cwd_writable0; reflexivity.
Qed.

(** A save answered with 200 has stored a non-empty, stripped key that
    starts with [sk-]. *)
Lemma save_api_key_success (rt : runtime) (data : json) (w w1 : world)
    (r1 : response) :
  save_api_key rt data w = (w1, Ret r1) ->
  status r1 = 200%Z ->
  exists key,
    str_truthy key = true /\ strip key = key /\
    startswith key (py "sk-") = true /\
    config_json (disk w1) = key_document key /\
    cwd_writable (disk w1) = cwd_writable (disk w).
Proof.
  intros H Hs.
  destruct (get data (py "api_key") (JStr (py ""))) as [v|e] eqn:Hget.
  2:{ unfold save_api_key, bind at 1, lift in H. rewrite Hget in H.
      discriminate H. }
  destruct v as [| | |k| |];
    try (unfold save_api_key, bind at 1 2, lift in H; rewrite Hget in H;
         discriminate H).
  rewrite (save_api_key_run rt data k w Hget) in H.
  destruct (str_truthy (strip k)) eqn:Hk; cbv beta iota delta [negb] in H.
  2:{ injection H as _ <-. discriminate Hs. }
  destruct (startswith (strip k) (py "sk-")) eqn:Hp; cbv beta iota in H.
  2:{ injection H as _ <-. discriminate Hs. }
  destruct (OpenAI_init rt (strip k) _) as [e|].
  { injection H as _ <-. discriminate Hs. }
  destruct (create rt _ _ _ 10) as [r|e].
  2:{ injection H as _ <-. discriminate Hs. }
  destruct (salvar_api_key_run rt (strip k)
              (logged w [NewClient (client_for (strip k));
                         test_call (strip k)]))
    as (w3 & saved & Hrun & _ & Hyes & _).
  rewrite Hrun in H. destruct saved.
  2:{ injection H as _ <-. discriminate Hs. }
  injection H as <- _. rewrite (Hyes eq_refl).
  exists (strip k). repeat split; auto using strip_idem.
Qed.

(* ================================================================== *)
(** ** Properties of the credential store and the context loader *)
(* ================================================================== *)

(** C5.  [carregar_api_key] never raises.  Whatever the state of
    [config.json], it returns a string and leaves files and [contexto] as
    they were (it only prints).  The string is empty when the file is absent,
    when reading it fails (a directory, no permission, bytes that are not
    UTF-8), when it is not JSON, and when the document has no string under
    [api_key]; otherwise it is the stored [api_key] stripped of surrounding
    whitespace. *)
Theorem carregar_api_key_never_raises (rt : runtime) (w : world) :
  exists log,
    Forall (fun ev => is_print ev = true) log /\
    carregar_api_key rt w =
    (logged w log,
     Ret match config_json (disk w) with
         | Missing => py ""
         | Directory => py ""
         | Regular false _ => py ""
         | Regular true BadBytes => py ""
         | Regular true BadJson => py ""
         | Regular true (Document (JDict kvs)) =>
           match lookup (py "api_key") kvs with
           | None => py ""
           | Some (JStr k) => strip k
           | Some _ => py ""
           end
         | Regular true (Document _) => py ""
         end).
Proof.
  destruct (carregar_api_key_run rt w) as (log & Hrun & Hlog & _).
  exists log. split; [exact Hlog|].
  rewrite Hrun. now rewrite stored_key_cases.
Qed.



(** C6.  [carregar_contexto] returns the text of the file stripped of
    surrounding whitespace; it returns the fallback string when the file is
    missing, and only then takes that branch; any other failure to read (a
    directory, no permission, bytes that are not UTF-8) is raised to the
    caller.  It changes nothing. *)
Theorem carregar_contexto_outcome (caminho_arquivo : pystr) (w : world) :
  carregar_contexto caminho_arquivo w =
  (w, match text_files (disk w) caminho_arquivo with
      | Missing => Ret (py "Você é um assistente útil.")
      | Regular true (Text s) => Ret (strip s)
      | Directory => Raise IsADirectoryError
      | Regular false _ => Raise PermissionError
      | Regular true NotUtf8 => Raise UnicodeDecodeError
      end).
Proof.
  unfold carregar_contexto, try_except, read_text, bind, get_disk.
  cbv beta iota.
  destruct (text_files (disk w) caminho_arquivo) as [| |[|] [|s]];
    reflexivity.
Qed.

(* ================================================================== *)
(** ** Properties of the handlers *)
(* ================================================================== *)

(** C7, as the specification states it, fails: with a [contexto.txt] that
    the server may not open, [reset_context] returns no response at all; the
    [PermissionError] of the loader leaves the handler, and [contexto] keeps
    its old value. *)
Lemma reset_context_counterexample :
  reset_context Scenario.remote_up
    (Scenario.world_of Missing Scenario.locked_txt)
  = (Scenario.world_of Missing Scenario.locked_txt, Raise PermissionError).
Proof. reflexivity. Qed.

(** C7, amended.  [reset_context] reads no input and reloads [contexto] from
    [CONTEXTO_FILE]: when the file is missing [contexto] becomes the fallback
    string, when it is a readable text it becomes that text stripped, and in
    both cases the answer is the success response and nothing else changes.
    When reading fails otherwise, the exception leaves the handler and
    [contexto] is unchanged. *)
Theorem reset_context_outcome (rt : runtime) (w : world) :
  reset_context rt w =
  match text_files (disk w) (CONTEXTO_FILE rt) with
  | Missing =>
    (rebound w (py "Você é um assistente útil."), Ret reset_answer)
  | Regular true (Text s) => (rebound w (strip s), Ret reset_answer)
  | Directory => (w, Raise IsADirectoryError)
  | Regular false _ => (w, Raise PermissionError)
  | Regular true NotUtf8 => (w, Raise UnicodeDecodeError)
  end.
Proof.
  unfold reset_context, carregar_contexto, try_except, read_text, bind,
    get_disk.
  cbv beta iota.
  destruct (text_files (disk w) (CONTEXTO_FILE rt)) as [| |[|] [|s]];
    reflexivity.
Qed.

(** C9.  [delete_api_key] on an absent credential file changes nothing and
    answers success with status 200; and deleting a second time ends in the
    same world with the same answer as deleting once. *)
Theorem delete_api_key_idempotent (rt : runtime) (w : world) :
  (config_json (disk w) = Missing ->
   delete_api_key rt w =
   (w, Ret {| body := JDict
                [(py "success", JBool true);
                 (py "message", JStr (py "API Key removida com sucesso"))];
              status := 200 |})) /\
  delete_api_key rt (fst (delete_api_key rt w)) = delete_api_key rt w.
Proof.
  split.
  - intros H. rewrite delete_api_key_run, H. reflexivity.
  - rewrite (delete_api_key_run rt w).
    destruct (config_json (disk w)) as [| |a dat] eqn:E; simpl.
    + now rewrite delete_api_key_run, E.
    + now rewrite delete_api_key_run, E.
    + destruct (cwd_writable (disk w)) eqn:Ew; simpl.
      * rewrite delete_api_key_run. reflexivity.
      * now rewrite delete_api_key_run, E, Ew.
Qed.

Lemma delete_api_key_idempotent_witness :
  delete_api_key Scenario.remote_up
    (Scenario.world_of Missing Scenario.bob_txt)
  = (Scenario.world_of Missing Scenario.bob_txt,
     Ret (success_response (py "API Key removida com sucesso"))).
Proof.
  apply (proj1 (delete_api_key_idempotent Scenario.remote_up
                  (Scenario.world_of Missing Scenario.bob_txt))).
  reflexivity.
Defined.

(** C8.  After a save answered with 200, [check_api_key] reports
    [configured: true].  Where the server may unlink in its directory, the
    delete that follows removes the file and answers the success response,
    and [check_api_key] then reports [configured: false].  Neither check
    changes the world. *)
Theorem credential_round_trip (rt : runtime) (data : json) (w w1 : world)
    (r1 : response) :
  save_api_key rt data w = (w1, Ret r1) ->
  status r1 = 200%Z ->
  check_api_key rt w1 = (w1, Ret (check_answer true)) /\
  (cwd_writable (disk w) = true ->
   delete_api_key rt w1 =
   (with_config w1 Missing,
    Ret (success_response (py "API Key removida com sucesso"))) /\
   check_api_key rt (with_config w1 Missing) =
   (with_config w1 Missing, Ret (check_answer false))).
Proof.
  intros Hsave Hs.
  destruct (save_api_key_success rt data w w1 r1 Hsave Hs)
    as (key & Hkey & Hstrip & _ & Hcfg & Hcwd).
  split.
  - unfold check_api_key, bind.
    rewrite (carregar_api_key_document rt w1 key Hcfg), Hstrip.
    cbv beta iota. now rewrite Hkey.
  - intros Hw. split.
    + rewrite delete_api_key_run, Hcfg. unfold key_document.
      now rewrite Hcwd, Hw.
    + unfold check_api_key, bind.
      now rewrite (carregar_api_key_missing rt (with_config w1 Missing)
                     eq_refl).
Qed.

(** The round trip run from an empty directory: save, check, delete,
    check. *)
Lemma credential_round_trip_witness :
  let w := Scenario.world_of Missing Scenario.bob_txt in
  let w1 := fst (save_api_key Scenario.remote_up
                   (Scenario.key_body (py " sk-abc ")) w) in
  let w2 := fst (delete_api_key Scenario.remote_up w1) in
  check_api_key Scenario.remote_up w1 = (w1, Ret (check_answer true)) /\
  delete_api_key Scenario.remote_up w1 =
  (with_config w1 Missing,
   Ret (success_response (py "API Key removida com sucesso"))) /\
  w2 = with_config w1 Missing /\
  check_api_key Scenario.remote_up w2 = (w2, Ret (check_answer false)).
Proof.
  intros w w1 w2.
  pose proof (credential_round_trip Scenario.remote_up
                (Scenario.key_body (py " sk-abc ")) w w1
                (success_response (py "API Key salva com sucesso"))
                eq_refl eq_refl) as [Hcheck Hdel].
  destruct (Hdel eq_refl) as [Hrun Hafter].
  assert (Hw2 : w2 = with_config w1 Missing)
    by (unfold w2; rewrite Hrun; reflexivity).
  split; [exact Hcheck|]. split; [exact Hrun|]. split; [exact Hw2|].
  rewrite Hw2. exact Hafter.
Defined.

(** C2.  [save_api_key] validates in order and stops at the first failure.
    For a body whose [api_key] is the string [k] (or is absent, [k] being
    empty then): (a) if [k] stripped is empty the answer is 400 "API Key não
    fornecida" and the world is untouched; (b) otherwise, if [k] stripped
    does not start with [sk-], the answer is 400 "Formato de API Key
    inválido" and the world is untouched; (c) a remote call appears among the
    events of the request only for a key that passed both checks. *)
Theorem save_api_key_validation_order (rt : runtime) (data : json)
    (k : pystr) (w : world) :
  get data (py "api_key") (JStr (py "")) = Ret (JStr k) ->
  (strip k = py "" ->
   save_api_key rt data w =
   (w, Ret (error_response (py "API Key não fornecida") 400))) /\
  (strip k <> py "" -> startswith (strip k) (py "sk-") = false ->
   save_api_key rt data w =
   (w, Ret (error_response (py "Formato de API Key inválido") 400))) /\
  (forall log,
     trace (fst (save_api_key rt data w)) = trace w ++ log ->
     Exists (fun ev => is_completion ev = true) log ->
     strip k <> py "" /\ startswith (strip k) (py "sk-") = true).
Proof.
  intros Hget. rewrite (save_api_key_run rt data k w Hget).
  assert (Hquiet : forall log, trace w = trace w ++ log ->
                     ~ Exists (fun ev => is_completion ev = true) log).
  { intros log Hlog Hex.
    rewrite <- (app_nil_r (trace w)) in Hlog at 1.
    apply app_inv_head in Hlog. subst log. inversion Hex. }
  split; [|split].
  - intros ->. reflexivity.
  - intros Hne Hp. rewrite Hp.
    destruct (strip k); [now elim Hne|reflexivity].
  - intros log Hlog Hex.
    destruct (strip k) as [|c s].
    { simpl in Hlog. elim (Hquiet log Hlog Hex). }
    cbv beta iota delta [str_truthy negb] in Hlog.
    destruct (startswith (c :: s) (py "sk-")).
    + split; [discriminate|reflexivity].
    + simpl in Hlog. elim (Hquiet log Hlog Hex).
Qed.

Lemma save_api_key_validation_order_witness :
  save_api_key Scenario.remote_up (Scenario.key_body (py "   "))
    (Scenario.world_of Missing Scenario.bob_txt)
  = (Scenario.world_of Missing Scenario.bob_txt,
     Ret (error_response (py "API Key não fornecida") 400))
  /\
  save_api_key Scenario.remote_up (Scenario.key_body (py " pk-abc "))
    (Scenario.world_of Missing Scenario.bob_txt)
  = (Scenario.world_of Missing Scenario.bob_txt,
     Ret (error_response (py "Formato de API Key inválido") 400))
  /\
  startswith (strip (py " sk-abc ")) (py "sk-") = true.
Proof.
  split; [|split].
  - apply (proj1 (save_api_key_validation_order Scenario.remote_up
                    (Scenario.key_body (py "   ")) (py "   ")
                    (Scenario.world_of Missing Scenario.bob_txt) eq_refl)).
    reflexivity.
  - apply (proj1 (proj2 (save_api_key_validation_order Scenario.remote_up
                    (Scenario.key_body (py " pk-abc ")) (py " pk-abc ")
                    (Scenario.world_of Missing Scenario.bob_txt) eq_refl))).
    + discriminate.
    + reflexivity.
  - apply (proj2 (proj2 (save_api_key_validation_order Scenario.remote_up
                    (Scenario.key_body (py " sk-abc ")) (py " sk-abc ")
                    (Scenario.world_of Missing Scenario.bob_txt) eq_refl))
             [NewClient (client_for (py "sk-abc")); test_call (py "sk-abc")]).
    + reflexivity.
    + right. left. reflexivity.
Defined.

(** C3.  For a key that passed the two checks, [save_api_key] builds a
    client for the stripped key and makes one call: model [deepseek-chat],
    the single user message "test", [max_tokens] 10.  An exception of the
    constructor or of the call gives 400 with "API Key inválida: " followed
    by the text of the exception, and the files are as before.  When the call
    returns, the key goes through [salvar_api_key].  If the credential file
    can be written, the store answers [True], the file holds the key, the
    loader reads it back, and the answer is the success response.  If it
    cannot, the store answers [False], the file does not hold the key, and
    the answer is 500. *)
Theorem save_api_key_remote_validation (rt : runtime) (data : json)
    (k : pystr) (w : world) :
  get data (py "api_key") (JStr (py "")) = Ret (JStr k) ->
  str_truthy (strip k) = true ->
  startswith (strip k) (py "sk-") = true ->
  let key := strip k in
  let w1 := logged w [NewClient (client_for key)] in
  let w2 := logged w [NewClient (client_for key); test_call key] in
  let invalid e :=
    error_response (py "API Key inválida: " ++ str_of rt e) 400 in
  (forall e, OpenAI_init rt key DEEPSEEK_URL = Some e ->
     save_api_key rt data w = (w1, Ret (invalid e))) /\
  (OpenAI_init rt key DEEPSEEK_URL = None ->
   (forall e,
      create rt (client_for key) (py "deepseek-chat")
        [{| role := py "user"; content := JStr (py "test") |}] 10 = Raise e ->
      save_api_key rt data w = (w2, Ret (invalid e)) /\
      disk w2 = disk w) /\
   (forall r,
      create rt (client_for key) (py "deepseek-chat")
        [{| role := py "user"; content := JStr (py "test") |}] 10 = Ret r ->
      (config_writable (disk w) = true ->
       let w3 := with_config w2 (key_document key) in
       salvar_api_key rt key w2 = (w3, Ret true) /\
       save_api_key rt data w =
       (w3, Ret (success_response (py "API Key salva com sucesso"))) /\
       config_json (disk w3) = key_document key /\
       carregar_api_key rt w3 = (w3, Ret key)) /\
      (config_writable (disk w) = false ->
       exists w3,
         salvar_api_key rt key w2 = (w3, Ret false) /\
         save_api_key rt data w =
         (w3, Ret (error_response (py "Erro ao salvar API Key") 500)) /\
         config_json (disk w3) <> key_document key))).
Proof.
  intros Hget Hk Hp key w1 w2 invalid.
  rewrite (save_api_key_run rt data k w Hget).
  fold key. fold key in Hk, Hp. rewrite Hk, Hp.
  cbv beta iota delta [negb].
  split; [|intros Hinit; split].
  - intros e ->. reflexivity.
  - intros e Hcall. rewrite Hinit, Hcall. split; reflexivity.
  - intros r Hcall. rewrite Hinit, Hcall. split.
    + intros Hw w3.
      pose proof (salvar_api_key_writable rt key w2 Hw) as Hrun.
      unfold w2 in Hrun |- *. rewrite Hrun.
      split; [reflexivity|]. split; [reflexivity|]. split; [reflexivity|].
      pose proof (carregar_api_key_document rt w3 key eq_refl) as Hload.
      unfold w3, key in Hload |- *. rewrite strip_idem in Hload.
      exact Hload.
    + intros Hw.
      destruct (salvar_api_key_unwritable rt key w2 Hw)
        as (w3 & e & Hrun & _ & _ & _ & Hne).
      exists w3. unfold w2 in Hrun |- *. rewrite Hrun.
      split; [reflexivity|]. split; [reflexivity|exact Hne].
Qed.

(** The three ends of a validated save: the key stored, the key rejected by
    the remote API, and the key accepted but not written on a full disk. *)
Lemma save_api_key_remote_validation_witness :
  let w := Scenario.world_of Missing Scenario.bob_txt in
  let body := Scenario.key_body (py " sk-abc ") in
  let key := strip (py " sk-abc ") in
  let w2 := logged w [NewClient (client_for key); test_call key] in
  save_api_key Scenario.remote_up body w
  = (with_config w2 (key_document key),
     Ret (success_response (py "API Key salva com sucesso")))
  /\
  carregar_api_key Scenario.remote_up (with_config w2 (key_document key))
  = (with_config w2 (key_document key), Ret key)
  /\
  save_api_key Scenario.remote_down body w
  = (w2, Ret (error_response
                (py "API Key inválida: "
                 ++ str_of Scenario.remote_down
                      (ClientError (py "Error code: 401"))) 400))
  /\
  exists w3,
    save_api_key Scenario.remote_up body (Scenario.full_world Missing)
    = (w3, Ret (error_response (py "Erro ao salvar API Key") 500)) /\
    config_json (disk w3) <> key_document key.
Proof.
  intros w body key w2.
  assert (Hup : forall v,
            config_writable (disk v) = true ->
            save_api_key Scenario.remote_up body v
            = (with_config
                 (logged v [NewClient (client_for key); test_call key])
                 (key_document key),
               Ret (success_response (py "API Key salva com sucesso"))) /\
            carregar_api_key Scenario.remote_up
              (with_config
                 (logged v [NewClient (client_for key); test_call key])
                 (key_document key))
            = (with_config
                 (logged v [NewClient (client_for key); test_call key])
                 (key_document key), Ret key)).
  { intros v Hv.
    destruct (proj1 (proj2 (proj2 (save_api_key_remote_validation
                                     Scenario.remote_up body (py " sk-abc ")
                                     v eq_refl eq_refl eq_refl) eq_refl)
                             [Some (py "hello back")] eq_refl) Hv)
      as (_ & Hsave & _ & Hload).
    split; [exact Hsave|exact Hload]. }
  split; [exact (proj1 (Hup w eq_refl))|].
  split; [exact (proj2 (Hup w eq_refl))|].
  split.
  - exact (proj1 (proj1 (proj2 (save_api_key_remote_validation
                                  Scenario.remote_down body (py " sk-abc ")
                                  w eq_refl eq_refl eq_refl) eq_refl)
                    (ClientError (py "Error code: 401")) eq_refl)).
  - destruct (proj2 (proj2 (proj2 (save_api_key_remote_validation
                                     Scenario.remote_up body (py " sk-abc ")
                                     (Scenario.full_world Missing)
                                     eq_refl eq_refl eq_refl) eq_refl)
                             [Some (py "hello back")] eq_refl) eq_refl)
      as (w3 & _ & Hsave & Hne).
    exists w3. split; [exact Hsave|exact Hne].
Defined.

(** C1, as the specification states it, fails, in three ways.  With a stored
    key, the message " " (one space, whitespace only) is relayed to the remote
    API and the answer is 200 with the reply.  With a stored key and the
    empty message the answer is 400, but the client has been constructed
    before.  With no stored key and the empty message the answer is 401, not
    400. *)
Lemma chat_blank_message_counterexample :
  let stored :=
    Scenario.world_of (Scenario.key_file (py "sk-real")) Scenario.bob_txt in
  let none := Scenario.world_of Missing Scenario.bob_txt in
  blank (py " ") = true /\
  chat Scenario.remote_up (Scenario.message_body (py " ")) stored
  = (logged stored
       [NewClient (client_for (py "sk-real"));
        Completion (client_for (py "sk-real")) (py "deepseek-chat")
          (chat_messages (py "You are Bob.") (JStr (py " "))) 2000],
     Ret {| body := JDict [(py "reply", JStr (py "hello back"))];
            status := 200 |}) /\
  chat Scenario.remote_up (Scenario.message_body (py "")) stored
  = (logged stored [NewClient (client_for (py "sk-real"))],
     Ret (error_response (py "Mensagem vazia") 400)) /\
  chat Scenario.remote_up (Scenario.message_body (py "")) none
  = (none,
     Ret (error_response
            (py "API Key não configurada. Por favor, configure primeiro.")
            401)).
Proof. repeat split. Qed.

(** C1, amended.  When the factory has built a client (a key is stored) and
    the [message] of the body is empty, absent or otherwise false, [chat]
    answers 400 "Mensagem vazia"; the only event of the request is the
    construction of the client, so no remote call is made. *)
Theorem chat_empty_message (rt : runtime) (data : json) (w w1 : world)
    (cl : client) (v : json) :
  criar_cliente rt w = (w1, Ret (Some cl)) ->
  get data (py "message") (JStr (py "")) = Ret v ->
  truthy v = false ->
  chat rt data w = (w1, Ret (error_response (py "Mensagem vazia") 400)) /\
  w1 = logged w [NewClient cl].
Proof.
  intros Hcl Hget Hv. split.
  - rewrite (chat_with_client rt data w w1 cl Hcl), Hget, Hv. reflexivity.
  - now destruct (criar_cliente_some rt w w1 cl Hcl) as (_ & -> & _).
Qed.

Lemma chat_empty_message_witness :
  let w := Scenario.world_of (Scenario.key_file (py "sk-real"))
             Scenario.bob_txt in
  chat Scenario.remote_up (Scenario.message_body (py "")) w
  = (logged w [NewClient (client_for (py "sk-real"))],
     Ret (error_response (py "Mensagem vazia") 400)).
Proof.
  intros w.
  apply (chat_empty_message Scenario.remote_up
           (Scenario.message_body (py "")) w
           (logged w [NewClient (client_for (py "sk-real"))])
           (client_for (py "sk-real")) (JStr (py ""))
           eq_refl eq_refl eq_refl).
Defined.

(** C4.  When the factory has built a client and the [message] of the body
    is true (a non-empty string), [chat] makes one call with that client:
    model [deepseek-chat], [max_tokens] 2000, and exactly two messages, the
    system one carrying [contexto] and the user one carrying the message.
    When the call returns choices, the answer is 200 with [reply] the content
    of the first; when it raises, the answer is 500 with the text of the
    exception. *)
Theorem chat_relays (rt : runtime) (data : json) (w w1 : world) (cl : client)
    (m : json) :
  criar_cliente rt w = (w1, Ret (Some cl)) ->
  get data (py "message") (JStr (py "")) = Ret m ->
  truthy m = true ->
  let msgs :=
    [{| role := py "system"; content := JStr (contexto w) |};
     {| role := py "user"; content := m |}] in
  exists r,
    chat rt data w =
    (logged w1 [Completion cl (py "deepseek-chat") msgs 2000], Ret r) /\
    cl = client_for (stored_key (disk w)) /\
    (forall c rest,
       create rt cl (py "deepseek-chat") msgs 2000 = Ret (c :: rest) ->
       r = {| body := JDict [(py "reply", json_of_content c)];
              status := 200 |}) /\
    (forall e,
       create rt cl (py "deepseek-chat") msgs 2000 = Raise e ->
       r = error_response (str_of rt e) 500).
Proof.
  intros Hcl Hget Hm msgs.
  rewrite (chat_with_client rt data w w1 cl Hcl), Hget, Hm.
  cbv beta iota zeta. unfold chat_messages. fold msgs.
  destruct (criar_cliente_some rt w w1 cl Hcl) as (Hc & _ & _).
  destruct (create rt cl (py "deepseek-chat") msgs 2000) as [[|c rest]|e];
    (eexists; split; [reflexivity|]; split; [exact Hc|]; split;
     [intros c' rest' Hr|intros e' Hr]);
    first [discriminate Hr | injection Hr as <-; reflexivity].
Qed.

Lemma chat_relays_witness :
  let w := Scenario.world_of (Scenario.key_file (py "sk-real"))
             Scenario.bob_txt in
  exists r,
    chat Scenario.remote_up (Scenario.message_body (py "hi")) w
    = (logged w [NewClient (client_for (py "sk-real"));
                 Completion (client_for (py "sk-real")) (py "deepseek-chat")
                   (chat_messages (py "You are Bob.") (JStr (py "hi"))) 2000],
       Ret r) /\
    r = {| body := JDict [(py "reply", JStr (py "hello back"))];
           status := 200 |}.
Proof.
  intros w.
  destruct (chat_relays Scenario.remote_up (Scenario.message_body (py "hi")) w
              (logged w [NewClient (client_for (py "sk-real"))])
              (client_for (py "sk-real")) (JStr (py "hi"))
              eq_refl eq_refl eq_refl) as (r & Hrun & _ & Hok & _).
  exists r. split; [exact Hrun|].
  apply (Hok (Some (py "hello back")) []). reflexivity.
Defined.

(* ================================================================== *)
(** ** Further properties: the client factory and the status check *)
(* ================================================================== *)

Lemma prints_no_calls (log : list event) :
  Forall (fun ev => is_print ev = true) log -> remote_calls log = 0.
Proof.
  unfold remote_calls. induction 1 as [|ev log Hev _ IH]; [reflexivity|].
  destruct ev; try discriminate Hev. exact IH.
Qed.

(** X1.  [criar_cliente] never raises and never calls the remote API; it
    leaves the files and [contexto] as they were. *)
Theorem criar_cliente_safe (rt : runtime) (w : world) :
  exists log r,
    criar_cliente rt w = (logged w log, Ret r) /\ remote_calls log = 0.
Proof.
  destruct (criar_cliente_run rt w) as (log & Hlog & Hrun).
  rewrite Hrun.
  destruct (str_truthy (stored_key (disk w))).
  - destruct (OpenAI_init rt _ _); eexists; eexists; split; reflexivity.
  - exists log, None. split; [reflexivity|]. now apply prints_no_calls.
Qed.

(** X2.  [criar_cliente] gives a client exactly when the stored key is not
    empty and the constructor accepts it; the client carries the stored key
    and the fixed endpoint, and its construction is the only event.  With an
    empty stored key the constructor is not called. *)
Theorem criar_cliente_gives_client (rt : runtime) (w : world) :
  let key := stored_key (disk w) in
  (forall cl,
     (exists w1, criar_cliente rt w = (w1, Ret (Some cl))) <->
     (str_truthy key = true /\
      OpenAI_init rt key DEEPSEEK_URL = None /\ cl = client_for key)) /\
  (str_truthy key = true -> OpenAI_init rt key DEEPSEEK_URL = None ->
   criar_cliente rt w =
   (logged w [NewClient (client_for key)], Ret (Some (client_for key)))) /\
  (str_truthy key = false ->
   exists log,
     criar_cliente rt w = (logged w log, Ret None) /\
     Forall (fun ev => is_print ev = true) log).
Proof.
  intros key.
  destruct (criar_cliente_run rt w) as (log & Hlog & Hrun). fold key in Hrun.
  split; [|split].
  - intros cl. split.
    + intros (w1 & H).
      destruct (criar_cliente_some rt w w1 cl H) as (Hc & _ & Hk).
      fold key in Hc, Hk. rewrite H in Hrun. rewrite Hk in Hrun.
      destruct (OpenAI_init rt key _); [discriminate Hrun|]. auto.
    + intros (Hk & Hi & ->). rewrite Hk, Hi in Hrun. eexists. exact Hrun.
  - intros Hk Hi. now rewrite Hk, Hi in Hrun.
  - intros Hk. rewrite Hk in Hrun. now exists log.
Qed.

Lemma criar_cliente_gives_client_witness :
  criar_cliente Scenario.remote_up
    (Scenario.world_of (Scenario.key_file (py " sk-real ")) Scenario.bob_txt)
  = (logged
       (Scenario.world_of (Scenario.key_file (py " sk-real "))
          Scenario.bob_txt)
       [NewClient (client_for (py "sk-real"))],
     Ret (Some (client_for (py "sk-real")))).
Proof.
  apply (proj1 (proj2 (criar_cliente_gives_client Scenario.remote_up
                         (Scenario.world_of
                            (Scenario.key_file (py " sk-real "))
                            Scenario.bob_txt))));
    reflexivity.
Defined.

(** X3.  [check_api_key] only reads: it never raises, builds no client,
    calls nothing remote, changes no file, and answers 200 with [configured]
    being [bool] of the key that [carregar_api_key] returns. *)
Theorem check_api_key_read_only (rt : runtime) (w : world) :
  exists log key,
    carregar_api_key rt w = (logged w log, Ret key) /\
    check_api_key rt w = (logged w log, Ret (check_answer (str_truthy key))) /\
    status (check_answer (str_truthy key)) = 200%Z /\
    Forall (fun ev => is_print ev = true) log.
Proof.
  destruct (carregar_api_key_run rt w) as (log & Hrun & Hlog & _).
  exists log, (stored_key (disk w)). split; [exact Hrun|].
  split; [|split; [reflexivity|exact Hlog]].
  unfold check_api_key, bind. now rewrite Hrun.
Qed.

(** X4.  Whenever [check_api_key] reports [configured: false], [chat]
    answers 401 in the same world as the check, whatever the body is (it is
    not even read): no client is built and nothing is called. *)
Theorem chat_unconfigured (rt : runtime) (w w1 : world) :
  check_api_key rt w = (w1, Ret (check_answer false)) ->
  forall data,
    chat rt data w =
    (w1, Ret (error_response
                (py "API Key não configurada. Por favor, configure primeiro.")
                401)) /\
    exists log, w1 = logged w log /\
                Forall (fun ev => is_print ev = true) log.
Proof.
  intros Hcheck data.
  destruct (carregar_api_key_run rt w) as (log & Hrun & Hlog & _).
  unfold check_api_key, bind in Hcheck. rewrite Hrun in Hcheck.
  assert (Hw : logged w log = w1) by exact (f_equal fst Hcheck).
  assert (Hk : str_truthy (stored_key (disk w)) = false).
  { apply (f_equal
             (fun p : world * result response =>
                match snd p with
                | Ret {| body := JDict ((_, JBool c) :: _) |} => c
                | _ => true
                end)) in Hcheck.
    exact Hcheck. }
  split; [|exists log; split; [now symmetry|exact Hlog]].
  apply chat_without_client.
  unfold criar_cliente, bind. rewrite Hrun, Hk, Hw. reflexivity.
Qed.

Lemma chat_unconfigured_witness :
  chat Scenario.remote_up JNull (Scenario.world_of Directory Scenario.bob_txt)
  = (logged (Scenario.world_of Directory Scenario.bob_txt)
       [Printed (py "Erro ao carregar API Key: "
                 ++ Scenario.render IsADirectoryError)],
     Ret (error_response
            (py "API Key não configurada. Por favor, configure primeiro.")
            401)).
Proof.
  refine (proj1 (chat_unconfigured Scenario.remote_up
                   (Scenario.world_of Directory Scenario.bob_txt)
                   (logged (Scenario.world_of Directory Scenario.bob_txt)
                      [Printed (py "Erro ao carregar API Key: "
                                ++ Scenario.render IsADirectoryError)])
                   _ JNull)).
  vm_compute. reflexivity.
Defined.

(* ================================================================== *)
(** ** Further properties: the chat relay *)
(* ================================================================== *)

Lemma print_is_chat_event (key ctx : pystr) (log : list event) :
  Forall (fun ev => is_print ev = true) log ->
  Forall (chat_event key ctx) log.
Proof.
  intros H. eapply Forall_impl; [|exact H].
  intros [] Hp; try discriminate Hp. exact I.
Qed.

(** Every run of [chat]: what it adds to the trace. *)
Lemma chat_log (rt : runtime) (data : json) (w : world) :
  exists log,
    fst (chat rt data w) = logged w log /\
    remote_calls log <= 1 /\
    Forall (chat_event (stored_key (disk w)) (contexto w)) log.
Proof.
  destruct (criar_cliente_run rt w) as (log & Hlog & Hrun).
  destruct (str_truthy (stored_key (disk w))).
  - destruct (OpenAI_init rt (stored_key (disk w)) _) as [e|].
    + rewrite (chat_without_client rt data w _ Hrun).
      eexists. split; [reflexivity|].
      split; [repeat constructor|]. repeat constructor.
    + rewrite (chat_with_client rt data w _ _ Hrun).
      destruct (get data (py "message") (JStr (py ""))) as [v|e].
      * destruct (truthy v).
        -- cbv zeta. rewrite logged_logged.
           eexists. split; [reflexivity|].
           split; [repeat constructor|].
           repeat constructor. now exists v.
        -- eexists. split; [reflexivity|].
           split; [repeat constructor|]. repeat constructor.
      * eexists. split; [reflexivity|].
        split; [repeat constructor|]. repeat constructor.
  - rewrite (chat_without_client rt data w _ Hrun).
    exists log. split; [reflexivity|].
    rewrite (prints_no_calls log Hlog).
    split; [repeat constructor|]. now apply print_is_chat_event.
Qed.

(** The world [w] seen after another history [t]. *)
Lemma carregar_api_key_frame (rt : runtime) (w : world) (t : list event) :
  let w' := {| disk := disk w; contexto := contexto w; trace := t |} in
  exists log,
    carregar_api_key rt w = (logged w log, Ret (stored_key (disk w))) /\
    carregar_api_key rt w' = (logged w' log, Ret (stored_key (disk w))) /\
    (str_truthy (stored_key (disk w)) = true -> log = []).
Proof.
  intros w'. subst w'.
  pose proof (logged_nil w) as Hnil.
  pose proof (logged_nil
                {| disk := disk w; contexto := contexto w; trace := t |})
    as Hnil'.
  crush_world w. cbn [disk contexto] in *.
  assert (Hcases :
    (exists log, log <> [] /\
       stored_key {| config_json := cfg; text_files := text_files0;
                     cwd_writable := cwd_writable0;
                     disk_full := disk_full0 |} = py "" /\
       forall c u,
         carregar_api_key rt
           {| disk := {| config_json := cfg; text_files := text_files0;
                         cwd_writable := cwd_writable0;
                         disk_full := disk_full0 |};
              contexto := c; trace := u |}
         = ({| disk := {| config_json := cfg; text_files := text_files0;
                          cwd_writable := cwd_writable0;
                          disk_full := disk_full0 |};
               contexto := c; trace := u ++ log |}, Ret (py ""))) \/
    (forall c u,
       carregar_api_key rt
         {| disk := {| config_json := cfg; text_files := text_files0;
                       cwd_writable := cwd_writable0;
                       disk_full := disk_full0 |};
            contexto := c; trace := u |}
       = ({| disk := {| config_json := cfg; text_files := text_files0;
                        cwd_writable := cwd_writable0;
                        disk_full := disk_full0 |};
             contexto := c; trace := u |},
          Ret (stored_key
                 {| config_json := cfg; text_files := text_files0;
                    cwd_writable := cwd_writable0;
                    disk_full := disk_full0 |})))).
  { destruct cfg as [| |[|] [| |[| | | | |kvs]]];
      try (right; intros; reflexivity);
      try (left; eexists; split; [|split; [reflexivity|intros; reflexivity]];
           discriminate).
    unfold carregar_api_key, stored_key, try_except, bind,
      os_path_exists_config, json_load_config, get_disk, ret, lift, get;
      simpl.
    destruct (lookup (py "api_key") kvs) as [[| | |k| |]|]; simpl;
      try (right; intros; reflexivity);
      try (left; eexists; split; [|split; [reflexivity|intros; reflexivity]];
           discriminate). }
  destruct Hcases as [(log & _ & Hk & Hrun)|Hrun].
  - exists log. rewrite Hk. split; [apply Hrun|]. split; [apply Hrun|].
    intros H. discriminate H.
  - exists []. rewrite Hnil, Hnil'. split; [apply Hrun|].
    split; [apply Hrun|reflexivity].
Qed.

(** The events and the answer of [chat] depend on the files and on
    [contexto] only, not on what happened before. *)
Lemma chat_frame (rt : runtime) (data : json) (w : world) (t : list event) :
  let w' := {| disk := disk w; contexto := contexto w; trace := t |} in
  exists log r,
    chat rt data w = (logged w log, r) /\
    chat rt data w' = (logged w' log, r).
Proof.
  intros w'.
  destruct (carregar_api_key_frame rt w t) as (log & Hrun & Hrun' & Hquiet).
  fold w' in Hrun'.
  destruct (str_truthy (stored_key (disk w))) eqn:Hkey.
  - rewrite (Hquiet eq_refl), logged_nil in Hrun, Hrun'.
    assert (Hc : forall v : world,
              disk v = disk w ->
              carregar_api_key rt v = (v, Ret (stored_key (disk w))) ->
              criar_cliente rt v =
              match OpenAI_init rt (stored_key (disk w)) DEEPSEEK_URL with
              | None =>
                (logged v [NewClient (client_for (stored_key (disk w)))],
                 Ret (Some (client_for (stored_key (disk w)))))
              | Some e =>
                (logged v
                   [NewClient (client_for (stored_key (disk w)));
                    Printed (py "Erro ao criar cliente: " ++ str_of rt e)],
                 Ret None)
              end).
    { intros v Hd Hv.
      destruct (criar_cliente_run rt v) as (l & _ & Hl).
      rewrite Hd, Hkey in Hl. exact Hl. }
    pose proof (Hc w eq_refl Hrun) as H1.
    pose proof (Hc w' eq_refl Hrun') as H2.
    destruct (OpenAI_init rt (stored_key (disk w)) _) as [e|].
    + rewrite (chat_without_client rt data w _ H1),
        (chat_without_client rt data w' _ H2).
      eexists; eexists; split; reflexivity.
    + rewrite (chat_with_client rt data w _ _ H1),
        (chat_with_client rt data w' _ _ H2).
      change (contexto w') with (contexto w).
      destruct (get data (py "message") (JStr (py ""))) as [v|e];
        [destruct (truthy v)|]; cbv zeta; rewrite ?logged_logged;
        eexists; eexists; split; reflexivity.
  - assert (H1 : criar_cliente rt w = (logged w log, Ret None)).
    { unfold criar_cliente, bind. now rewrite Hrun, Hkey. }
    assert (H2 : criar_cliente rt w' = (logged w' log, Ret None)).
    { unfold criar_cliente, bind. now rewrite Hrun', Hkey. }
    rewrite (chat_without_client rt data w _ H1),
      (chat_without_client rt data w' _ H2).
    eexists; eexists; split; reflexivity.
Qed.

(** X5.  With a client built, a body that is not a JSON object makes [chat]
    raise [AttributeError] out of the handler: no response is produced, and
    nothing is called. *)
Theorem chat_malformed_body (rt : runtime) (data : json) (w w1 : world)
    (cl : client) :
  criar_cliente rt w = (w1, Ret (Some cl)) ->
  (forall kvs, data <> JDict kvs) ->
  chat rt data w = (w1, Raise AttributeError) /\
  w1 = logged w [NewClient cl].
Proof.
  intros Hcl Hbody. split.
  - rewrite (chat_with_client rt data w w1 cl Hcl).
    destruct data as [| | | | |kvs]; try reflexivity.
    now elim (Hbody kvs).
  - now destruct (criar_cliente_some rt w w1 cl Hcl) as (_ & -> & _).
Qed.

Lemma chat_malformed_body_witness :
  let w := Scenario.world_of (Scenario.key_file (py "sk-real"))
             Scenario.bob_txt in
  chat Scenario.remote_up (JList [JStr (py "hi")]) w
  = (logged w [NewClient (client_for (py "sk-real"))], Raise AttributeError).
Proof.
  intros w.
  apply (chat_malformed_body Scenario.remote_up (JList [JStr (py "hi")]) w
           (logged w [NewClient (client_for (py "sk-real"))])
           (client_for (py "sk-real")) eq_refl).
  intros kvs H. discriminate H.
Defined.

(** X6.  When the remote API returns no choice, [chat] answers 500 with the
    text of the [IndexError] raised by [choices[0]]; the call has been
    made. *)
Theorem chat_empty_choices (rt : runtime) (data : json) (w w1 : world)
    (cl : client) (m : json) :
  criar_cliente rt w = (w1, Ret (Some cl)) ->
  get data (py "message") (JStr (py "")) = Ret m ->
  truthy m = true ->
  create rt cl (py "deepseek-chat") (chat_messages (contexto w) m) 2000
  = Ret [] ->
  chat rt data w =
  (logged w1 [Completion cl (py "deepseek-chat")
                (chat_messages (contexto w) m) 2000],
   Ret (error_response (str_of rt IndexError) 500)).
Proof.
  intros Hcl Hget Hm Hcall.
  rewrite (chat_with_client rt data w w1 cl Hcl), Hget, Hm.
  cbv zeta. now rewrite Hcall.
Qed.

Lemma chat_empty_choices_witness :
  let w := Scenario.world_of (Scenario.key_file (py "sk-real"))
             Scenario.bob_txt in
  chat Scenario.remote_mute (Scenario.message_body (py "hi")) w
  = (logged (logged w [NewClient (client_for (py "sk-real"))])
       [Completion (client_for (py "sk-real")) (py "deepseek-chat")
          (chat_messages (py "You are Bob.") (JStr (py "hi"))) 2000],
     Ret (error_response (str_of Scenario.remote_mute IndexError) 500)).
Proof.
  intros w.
  refine (chat_empty_choices Scenario.remote_mute
            (Scenario.message_body (py "hi")) w
            (logged w [NewClient (client_for (py "sk-real"))])
            (client_for (py "sk-real")) (JStr (py "hi")) _ _ _ _);
    vm_compute; reflexivity.
Defined.

(** X7.  Whatever the body and the world, [chat] changes no file and does not
    rebind [contexto]; it makes at most one remote call; and every client it
    builds and every call it makes uses the stored key, the fixed endpoint,
    the model [deepseek-chat], the cap of 2000 tokens and the two messages
    built from the current [contexto]. *)
Theorem chat_effects (rt : runtime) (data : json) (w : world) :
  exists log,
    fst (chat rt data w) = logged w log /\
    remote_calls log <= 1 /\
    Forall (chat_event (stored_key (disk w)) (contexto w)) log.
Proof. exact (chat_log rt data w). Qed.

(** X8.  [chat] keeps no history: after any earlier chat request [d0], a
    request adds the same events (the same client, the same call with the
    same two messages) and gets the same answer as it would have without
    it. *)
Theorem chat_keeps_no_history (rt : runtime) (d0 data : json) (w : world) :
  exists log r,
    chat rt data w = (logged w log, r) /\
    chat rt data (fst (chat rt d0 w)) = (logged (fst (chat rt d0 w)) log, r).
Proof.
  destruct (chat_log rt d0 w) as (log0 & Hw & _).
  rewrite Hw. exact (chat_frame rt data w (trace w ++ log0)).
Qed.

(* ================================================================== *)
(** ** Further properties: saving a credential *)
(* ================================================================== *)

(** The six ways in which [save_api_key] ends on a body whose [api_key] is a
    string (or is absent). *)
Lemma save_api_key_cases (rt : runtime) (data : json) (k : pystr)
    (w : world) :
  get data (py "api_key") (JStr (py "")) = Ret (JStr k) ->
  let key := strip k in
  let w2 := logged w [NewClient (client_for key); test_call key] in
  let invalid e :=
    error_response (py "API Key inválida: " ++ str_of rt e) 400 in
  save_api_key rt data w =
    (w, Ret (error_response (py "API Key não fornecida") 400)) \/
  save_api_key rt data w =
    (w, Ret (error_response (py "Formato de API Key inválido") 400)) \/
  (exists e, save_api_key rt data w =
             (logged w [NewClient (client_for key)], Ret (invalid e))) \/
  (exists e, save_api_key rt data w = (w2, Ret (invalid e))) \/
  (str_truthy key = true /\ startswith key (py "sk-") = true /\
   save_api_key rt data w =
   (with_config w2 (key_document key),
    Ret (success_response (py "API Key salva com sucesso")))) \/
  (exists w3 e,
     save_api_key rt data w =
     (w3, Ret (error_response (py "Erro ao salvar API Key") 500)) /\
     contexto w3 = contexto w /\
     trace w3 =
     trace w2 ++ [Printed (py "Erro ao salvar API Key: " ++ str_of rt e)] /\
     (config_json (disk w3) = config_json (disk w) \/
      config_json (disk w3) = Regular true BadJson)).
Proof.
  intros Hget key w2 invalid.
  rewrite (save_api_key_run rt data k w Hget). fold key.
  destruct (str_truthy key) eqn:Hk; cbv beta iota delta [negb];
    [|now left].
  destruct (startswith key (py "sk-")) eqn:Hp; cbv beta iota;
    [|now right; left].
  destruct (OpenAI_init rt key _) as [e|];
    [right; right; left; now exists e|].
  destruct (create rt _ _ _ 10) as [r|e];
    [|right; right; right; left; now exists e].
  destruct (salvar_api_key_run rt key w2)
    as (w3 & saved & Hrun & Hctx & Hyes & Hno).
  unfold w2 in Hrun. rewrite Hrun. fold w2.
  destruct saved.
  - right; right; right; right; left.
    rewrite (Hyes eq_refl). auto.
  - right; right; right; right; right.
    destruct (Hno eq_refl) as ((e & Htr) & Hcfg).
    exists w3, e. repeat split; auto.
Qed.

(** X9.  A body that is not a JSON object, or whose [api_key] is not a
    string, makes [save_api_key] raise [AttributeError] out of the handler
    before any check: the world is untouched. *)
Theorem save_api_key_malformed_body (rt : runtime) (data : json)
    (w : world) :
  (forall k, get data (py "api_key") (JStr (py "")) <> Ret (JStr k)) ->
  save_api_key rt data w = (w, Raise AttributeError).
Proof.
  intros Hbody. unfold save_api_key, bind at 1 2, lift.
  destruct data as [| | | | |kvs]; try reflexivity.
  unfold get in *.
  destruct (lookup (py "api_key") kvs) as [[| | |k| |]|]; try reflexivity.
  - now elim (Hbody k).
  - now elim (Hbody (py "")).
Qed.

Lemma save_api_key_malformed_body_witness :
  save_api_key Scenario.remote_up (JDict [(py "api_key", JInt 42)])
    (Scenario.world_of Missing Scenario.bob_txt)
  = (Scenario.world_of Missing Scenario.bob_txt, Raise AttributeError).
Proof.
  apply (save_api_key_malformed_body Scenario.remote_up
           (JDict [(py "api_key", JInt 42)])
           (Scenario.world_of Missing Scenario.bob_txt)).
  intros k H. discriminate H.
Defined.

(** X10.  On a body whose [api_key] is a string (or is absent),
    [save_api_key] always answers: it raises nothing, its status is 200, 400
    or 500, it does not rebind [contexto], and it makes at most one remote
    call. *)
Theorem save_api_key_answers (rt : runtime) (data : json) (k : pystr)
    (w : world) :
  get data (py "api_key") (JStr (py "")) = Ret (JStr k) ->
  exists w1 r log,
    save_api_key rt data w = (w1, Ret r) /\
    (status r = 200 \/ status r = 400 \/ status r = 500)%Z /\
    contexto w1 = contexto w /\
    trace w1 = trace w ++ log /\ remote_calls log <= 1.
Proof.
  intros Hget.
  destruct (save_api_key_cases rt data k w Hget)
    as [H|[H|[(e & H)|[(e & H)|[(_ & _ & H)|(w3 & e & H & Hc & Ht & _)]]]]];
    rewrite H.
  - exists w, (error_response (py "API Key não fornecida") 400), [].
    rewrite app_nil_r. repeat split; auto.
  - exists w, (error_response (py "Formato de API Key inválido") 400), [].
    rewrite app_nil_r. repeat split; auto.
  - eexists; eexists; eexists.
    split; [reflexivity|]. repeat split; simpl; auto.
  - eexists; eexists; eexists.
    split; [reflexivity|]. repeat split; simpl; auto.
  - eexists; eexists; eexists.
    split; [reflexivity|]. repeat split; simpl; auto.
  - eexists; eexists; eexists.
    split; [reflexivity|]. split; [simpl; auto|]. split; [exact Hc|].
    split; [rewrite Ht; simpl; rewrite <- app_assoc; reflexivity|].
    simpl. auto.
Qed.

Lemma save_api_key_answers_witness :
  exists w1 r log,
    save_api_key Scenario.remote_up (JDict [])
      (Scenario.world_of Missing Scenario.bob_txt) = (w1, Ret r) /\
    (status r = 200 \/ status r = 400 \/ status r = 500)%Z /\
    contexto w1 = py "You are Bob." /\
    trace w1 = [] ++ log /\ remote_calls log <= 1.
Proof.
  exact (save_api_key_answers Scenario.remote_up (JDict []) (py "")
           (Scenario.world_of Missing Scenario.bob_txt) eq_refl).
Defined.

(** X11.  A save answered with 200 replaces whatever the credential file
    held: the file then holds the submitted key stripped, which starts with
    [sk-], and [carregar_api_key] returns exactly that key. *)
Theorem save_api_key_stores_stripped (rt : runtime) (data : json)
    (k : pystr) (w w1 : world) (r1 : response) :
  get data (py "api_key") (JStr (py "")) = Ret (JStr k) ->
  save_api_key rt data w = (w1, Ret r1) ->
  status r1 = 200%Z ->
  config_json (disk w1) = key_document (strip k) /\
  startswith (strip k) (py "sk-") = true /\
  carregar_api_key rt w1 = (w1, Ret (strip k)).
Proof.
  intros Hget Hsave Hs.
  destruct (save_api_key_cases rt data k w Hget)
    as [H|[H|[(e & H)|[(e & H)|[(_ & Hp & H)|(w3 & e & H & _)]]]]];
    rewrite H in Hsave; injection Hsave as <- <-; try discriminate Hs.
  split; [reflexivity|]. split; [exact Hp|].
  match goal with
  | |- carregar_api_key rt ?v = _ =>
    pose proof (carregar_api_key_document rt v (strip k) eq_refl) as Hl
  end.
  rewrite strip_idem in Hl. exact Hl.
Qed.

Lemma save_api_key_stores_stripped_witness :
  let w := Scenario.world_of (Scenario.key_file (py "sk-old"))
             Scenario.bob_txt in
  let w1 := fst (save_api_key Scenario.remote_up
                   (Scenario.key_body (py " sk-new ")) w) in
  carregar_api_key Scenario.remote_up w1 = (w1, Ret (py "sk-new")).
Proof.
  intros w w1.
  apply (save_api_key_stores_stripped Scenario.remote_up
           (Scenario.key_body (py " sk-new ")) (py " sk-new ") w w1
           (success_response (py "API Key salva com sucesso"))
           eq_refl eq_refl eq_refl).
Defined.

(** X12.  A save answered with 400 changes no file and does not rebind
    [contexto]: the credential stored before is still the one stored. *)
Theorem save_api_key_rejected_keeps_disk (rt : runtime) (data : json)
    (k : pystr) (w w1 : world) (r1 : response) :
  get data (py "api_key") (JStr (py "")) = Ret (JStr k) ->
  save_api_key rt data w = (w1, Ret r1) ->
  status r1 = 400%Z ->
  disk w1 = disk w /\ contexto w1 = contexto w.
Proof.
  intros Hget Hsave Hs.
  destruct (save_api_key_cases rt data k w Hget)
    as [H|[H|[(e & H)|[(e & H)|[(_ & _ & H)|(w3 & e & H & _)]]]]];
    rewrite H in Hsave; injection Hsave as <- <-; try discriminate Hs;
    split; reflexivity.
Qed.

Lemma save_api_key_rejected_keeps_disk_witness :
  let w := Scenario.world_of (Scenario.key_file (py "sk-old"))
             Scenario.bob_txt in
  disk (fst (save_api_key Scenario.remote_down
               (Scenario.key_body (py "sk-new")) w)) = disk w.
Proof.
  intros w.
  apply (save_api_key_rejected_keeps_disk Scenario.remote_down
           (Scenario.key_body (py "sk-new")) (py "sk-new") w
           (fst (save_api_key Scenario.remote_down
                   (Scenario.key_body (py "sk-new")) w))
           (error_response (py "API Key inválida: Error code: 401") 400)
           eq_refl eq_refl eq_refl).
Defined.



(** X14.  [salvar_api_key] raises nothing, calls nothing remote and does
    not rebind [contexto].  When the credential file can be written it
    answers [True].  Whenever it answers [True] it has printed nothing and
    the only change is that the file holds the given key as its document.
    Whenever it answers [False] it has printed one error line, and the file
    is as before or is left as a file that is no JSON document. *)
Theorem salvar_api_key_outcome (rt : runtime) (k : pystr) (w : world) :
  exists w1 saved log,
    salvar_api_key rt k w = (w1, Ret saved) /\
    contexto w1 = contexto w /\
    trace w1 = trace w ++ log /\
    Forall (fun ev => is_print ev = true) log /\
    (config_writable (disk w) = true -> saved = true) /\
    (saved = true -> w1 = with_config w (key_document k) /\ log = []) /\
    (saved = false ->
     (exists e,
        log = [Printed (py "Erro ao salvar API Key: " ++ str_of rt e)]) /\
     (config_json (disk w1) = config_json (disk w) \/
      config_json (disk w1) = Regular true BadJson)).
Proof.
  destruct (config_writable (disk w)) eqn:Hw.
  - exists (with_config w (key_document k)), true, [].
    rewrite (salvar_api_key_writable rt k w Hw).
    split; [reflexivity|]. split; [reflexivity|].
    split; [cbn [with_config trace]; now rewrite app_nil_r|].
    split; [constructor|]. split; [reflexivity|].
    split; [intros _; split; reflexivity|intros H; discriminate H].
  - destruct (salvar_api_key_unwritable rt k w Hw)
      as (w1 & e & Hrun & Hc & Ht & Hcfg & _).
    exists w1, false. eexists.
    split; [exact Hrun|]. split; [exact Hc|]. split; [exact Ht|].
    split; [repeat constructor|]. split; [intros H; discriminate H|].
    split; [intros H; discriminate H|intros _].
    split; [now exists e|exact Hcfg].
Qed.

(** X15.  The last save wins: once [salvar_api_key] has succeeded, a
    further save on the same disk succeeds too, and afterwards the readers
    see the second key stripped, not the first. *)
Theorem salvar_api_key_last_wins (rt : runtime) (k1 k2 : pystr)
    (w w1 : world) :
  salvar_api_key rt k1 w = (w1, Ret true) ->
  salvar_api_key rt k2 w1 = (with_config w1 (key_document k2), Ret true) /\
  carregar_api_key rt (with_config w1 (key_document k2))
  = (with_config w1 (key_document k2), Ret (strip k2)).
Proof.
  intros H.
  destruct (salvar_api_key_run rt k1 w) as (w' & saved & Hrun & _ & Hyes & _).
  rewrite H in Hrun. injection Hrun as <- <-.
  split; [|now apply carregar_api_key_document].
  destruct (salvar_api_key_run rt k2 w1)
    as (w2 & saved & Hrun & _ & Hyes2 & Hno).
  destruct saved; [now rewrite Hrun, (Hyes2 eq_refl)|].
  exfalso. clear Hyes2. rewrite (Hyes eq_refl) in Hrun.
  revert Hrun. crush_world w.
  unfold salvar_api_key, try_except, bind, json_dump_config, get_disk,
    put_disk, raise, ret, print, emit, Exception, key_document, with_config
    in H |- *; simpl in H |- *.
  destruct cfg as [| |[|] dat]; simpl in H |- *;
    try (destruct cwd_writable0); try (destruct disk_full0);
    simpl in H |- *; try discriminate H; intros Hrun; discriminate Hrun.
Qed.

Lemma salvar_api_key_last_wins_witness :
  let w1 := with_config (Scenario.world_of Missing Scenario.bob_txt)
              (key_document (py "sk-one")) in
  carregar_api_key Scenario.remote_up
    (with_config w1 (key_document (py " sk-two")))
  = (with_config w1 (key_document (py " sk-two")), Ret (py "sk-two")).
Proof.
  intros w1.
  apply (salvar_api_key_last_wins Scenario.remote_up (py "sk-one")
           (py " sk-two") (Scenario.world_of Missing Scenario.bob_txt) w1
           eq_refl).
Defined.

(* ================================================================== *)
(** ** Further properties: deleting, resetting, starting *)
(* ================================================================== *)

Lemma reset_context_run (rt : runtime) (w : world) :
  reset_context rt w =
  match text_files (disk w) (CONTEXTO_FILE rt) with
  | Missing =>
    (rebound w (py "Você é um assistente útil."), Ret reset_answer)
  | Regular true (Text s) => (rebound w (strip s), Ret reset_answer)
  | Directory => (w, Raise IsADirectoryError)
  | Regular false _ => (w, Raise PermissionError)
  | Regular true NotUtf8 => (w, Raise UnicodeDecodeError)
  end.
Proof.
  unfold reset_context, carregar_contexto, try_except, read_text, bind,
    get_disk.
  cbv beta iota.
  destruct (text_files (disk w) (CONTEXTO_FILE rt)) as [| |[|] [|s]];
    reflexivity.
Qed.

Lemma load_module_run (rt : runtime) (w : world) :
  load_module rt w =
  match text_files (disk w) (CONTEXTO_FILE rt) with
  | Missing => (rebound w (py "Você é um assistente útil."), Ret tt)
  | Regular true (Text s) => (rebound w (strip s), Ret tt)
  | Directory => (w, Raise IsADirectoryError)
  | Regular false _ => (w, Raise PermissionError)
  | Regular true NotUtf8 => (w, Raise UnicodeDecodeError)
  end.
Proof.
  unfold load_module, carregar_contexto, try_except, read_text, bind,
    get_disk.
  cbv beta iota.
  destruct (text_files (disk w) (CONTEXTO_FILE rt)) as [| |[|] [|s]];
    reflexivity.
Qed.

(** X16.  [delete_api_key] never raises and adds no event.  It answers 200
    or 500: after 200 the credential file is gone; with 500 the world is
    exactly as before and the path still exists. *)
Theorem delete_api_key_outcome (rt : runtime) (w : world) :
  exists w1 r,
    delete_api_key rt w = (w1, Ret r) /\
    contexto w1 = contexto w /\ trace w1 = trace w /\
    (status r = 200%Z /\ config_json (disk w1) = Missing \/
     status r = 500%Z /\ w1 = w /\ config_json (disk w) <> Missing).
Proof.
  rewrite delete_api_key_run.
  destruct (config_json (disk w)) as [| |a dat] eqn:E.
  - eexists; eexists. split; [reflexivity|]. repeat split. left. auto.
  - eexists; eexists. split; [reflexivity|]. repeat split. right.
    repeat split. discriminate.
  - destruct (cwd_writable (disk w));
      eexists; eexists; (split; [reflexivity|]); repeat split.
    + left. auto.
    + right. repeat split. discriminate.
Qed.

(** X17.  After a delete answered with 200, [chat] answers 401 to any body,
    without building a client or calling anything: the world stays as the
    delete left it. *)
Theorem delete_then_chat (rt : runtime) (w w1 : world) (r : response) :
  delete_api_key rt w = (w1, Ret r) ->
  status r = 200%Z ->
  forall data,
    chat rt data w1 =
    (w1, Ret (error_response
                (py "API Key não configurada. Por favor, configure primeiro.")
                401)).
Proof.
  intros Hdel Hs data.
  assert (Hcfg : config_json (disk w1) = Missing).
  { rewrite delete_api_key_run in Hdel.
    destruct (config_json (disk w)) as [| |a dat] eqn:E.
    - injection Hdel as <- _. exact E.
    - injection Hdel as _ <-. discriminate Hs.
    - destruct (cwd_writable (disk w)).
      + injection Hdel as <- _. reflexivity.
      + injection Hdel as _ <-. discriminate Hs. }
  apply chat_without_client.
  unfold criar_cliente, bind.
  now rewrite (carregar_api_key_missing rt w1 Hcfg).
Qed.

Lemma delete_then_chat_witness :
  let w1 := Scenario.world_of Missing Scenario.bob_txt in
  chat Scenario.remote_up (Scenario.message_body (py "hi")) w1
  = (w1, Ret (error_response
                (py "API Key não configurada. Por favor, configure primeiro.")
                401)).
Proof.
  intros w1.
  apply (delete_then_chat Scenario.remote_up
           (Scenario.world_of (Scenario.key_file (py "sk-real"))
              Scenario.bob_txt)
           w1 (success_response (py "API Key removida com sucesso"))
           eq_refl eq_refl).
Defined.

(** X18.  A [reset_context] that answers is idempotent: a second reset ends
    in the same world with the same answer.  The [contexto] it leaves has no
    surrounding whitespace, and it touches neither the files nor the
    trace. *)
Theorem reset_context_idempotent (rt : runtime) (w w1 : world)
    (r : response) :
  reset_context rt w = (w1, Ret r) ->
  reset_context rt w1 = (w1, Ret r) /\
  strip (contexto w1) = contexto w1 /\
  disk w1 = disk w /\ trace w1 = trace w.
Proof.
  intros H. rewrite reset_context_run in H.
  destruct (text_files (disk w) (CONTEXTO_FILE rt)) as [| |[|] [|s]] eqn:E;
    try discriminate H; injection H as <- <-;
    rewrite reset_context_run; cbn [rebound disk contexto trace];
    rewrite E; repeat split.
  apply strip_idem.
Qed.

Lemma reset_context_idempotent_witness :
  let w := Scenario.world_of Missing
             (Regular true (Text (py "  You are Ann.  "))) in
  contexto (fst (reset_context Scenario.remote_up w)) = py "You are Ann." /\
  reset_context Scenario.remote_up (fst (reset_context Scenario.remote_up w))
  = (fst (reset_context Scenario.remote_up w), Ret reset_answer).
Proof.
  intros w. split; [reflexivity|].
  apply (reset_context_idempotent Scenario.remote_up w
           (fst (reset_context Scenario.remote_up w)) reset_answer eq_refl).
Defined.

(** X19.  After [reset_context] has reloaded a readable [contexto.txt], the
    next relayed chat carries the stripped text of the file as the content of
    its system message. *)
Theorem reset_then_chat (rt : runtime) (data : json) (w w2 : world)
    (cl : client) (s : pystr) (m : json) :
  text_files (disk w) (CONTEXTO_FILE rt) = Regular true (Text s) ->
  criar_cliente rt (rebound w (strip s)) = (w2, Ret (Some cl)) ->
  get data (py "message") (JStr (py "")) = Ret m ->
  truthy m = true ->
  fst (reset_context rt w) = rebound w (strip s) /\
  fst (chat rt data (fst (reset_context rt w))) =
  logged w2
    [Completion cl (py "deepseek-chat")
       [{| role := py "system"; content := JStr (strip s) |};
        {| role := py "user"; content := m |}] 2000].
Proof.
  intros Hfile Hcl Hget Hm.
  rewrite reset_context_run, Hfile. cbn [fst].
  split; [reflexivity|].
  rewrite (chat_with_client rt data _ w2 cl Hcl), Hget, Hm. reflexivity.
Qed.

Lemma reset_then_chat_witness :
  let w := {| disk := Scenario.disk_of (Scenario.key_file (py "sk-real"))
                        Scenario.bob_txt;
              contexto := py "stale"; trace := [] |} in
  fst (chat Scenario.remote_up (Scenario.message_body (py "hi"))
         (fst (reset_context Scenario.remote_up w)))
  = logged (logged (rebound w (py "You are Bob."))
              [NewClient (client_for (py "sk-real"))])
      [Completion (client_for (py "sk-real")) (py "deepseek-chat")
         [{| role := py "system"; content := JStr (py "You are Bob.") |};
          {| role := py "user"; content := JStr (py "hi") |}] 2000].
Proof.
  intros w.
  apply (reset_then_chat Scenario.remote_up
           (Scenario.message_body (py "hi")) w
           (logged (rebound w (py "You are Bob."))
              [NewClient (client_for (py "sk-real"))])
           (client_for (py "sk-real")) (py "You are Bob.")
           (JStr (py "hi")) eq_refl eq_refl eq_refl eq_refl).
Defined.

(** X20.  [reset_context] restores what the start of the server computes:
    both end in the same world and fail on the same files with the same
    exception; and a reset right after a successful start changes nothing. *)
Theorem reset_matches_startup (rt : runtime) (w : world) :
  fst (reset_context rt w) = fst (load_module rt w) /\
  (forall e, snd (load_module rt w) = Raise e <->
             snd (reset_context rt w) = Raise e) /\
  (forall w1, load_module rt w = (w1, Ret tt) ->
              reset_context rt w1 = (w1, Ret reset_answer)).
Proof.
  rewrite reset_context_run, load_module_run.
  destruct (text_files (disk w) (CONTEXTO_FILE rt)) as [| |[|] [|s]] eqn:E;
    cbn [fst snd];
    (split; [reflexivity|]);
    (split;
     [intros e; split; intros H;
      first [discriminate H | injection H as <-; reflexivity]|]);
    intros w1 H; try discriminate H; injection H as <-;
    rewrite reset_context_run; cbn [rebound disk contexto trace];
    rewrite E; reflexivity.
Qed.

(* ================================================================== *)
(** ** Further properties: the start-up banner and the footprint *)
(* ================================================================== *)

Lemma bind_print {A : Type} (line : pystr) (k : unit -> M A) (w : world) :
  bind (print line) k w = k tt (logged w [Printed line]).
Proof. reflexivity. Qed.

Lemma print_run (line : pystr) (w : world) :
  print line w = (logged w [Printed line], Ret tt).
Proof. reflexivity. Qed.

(** The banner, by the stored key. *)
Lemma main_banner_run (rt : runtime) (w : world) :
  let key := stored_key (disk w) in
  exists log,
    Forall (fun ev => is_print ev = true) log /\
    (str_truthy key = true -> log = []) /\
    main_banner rt w =
    (logged w
       ([Printed (str_repeat (py "=") 50);
         Printed (py "🚀 Servidor Flask iniciado!");
         Printed (str_repeat (py "=") 50)]
        ++ log
        ++ (if str_truthy key then
              [Printed (py "✓ API Key encontrada!"); Printed (key_line key)]
            else
              [Printed (py "⚠ Nenhuma API Key configurada");
               Printed (py "📝 Acesse a tela de configuração para adicionar sua API Key")])
        ++ [Printed (str_repeat (py "=") 50);
            Printed (py "🌐 Servidor rodando em: http://127.0.0.1:5000");
            Printed (str_repeat (py "=") 50)]),
     Ret tt).
Proof.
  intros key.
  set (w3 := logged
               (logged (logged w [Printed (str_repeat (py "=") 50)])
                  [Printed (py "🚀 Servidor Flask iniciado!")])
               [Printed (str_repeat (py "=") 50)]).
  destruct (carregar_api_key_run rt w3) as (log & Hrun & Hlog & Hquiet).
  change (stored_key (disk w3)) with key in Hrun, Hquiet.
  exists log. split; [exact Hlog|]. split; [exact Hquiet|].
  unfold main_banner. rewrite !bind_print. fold w3.
  unfold bind at 1. rewrite Hrun.
  unfold bind at 1.
  destruct (str_truthy key);
    rewrite bind_print, print_run; cbv beta iota;
    rewrite !bind_print, print_run;
    unfold w3, key_line; rewrite !logged_logged;
    apply (f_equal (fun l => (logged w l, Ret tt)));
    cbn [app]; reflexivity.
Qed.

(** X21.  The lines of the start-up banner.  The banner changes neither the
    files nor [contexto].  With a stored key its lines are the eight listed
    here, and the one that depends on the key shows at most its first ten
    and its last four characters; with no stored key the lines include the
    notice that no key is configured. *)
Theorem main_banner_lines (rt : runtime) (w : world) :
  let key := stored_key (disk w) in
  exists log,
    fst (main_banner rt w) = logged w log /\
    Forall (fun ev => is_print ev = true) log /\
    (str_truthy key = true ->
     log = [Printed (str_repeat (py "=") 50);
            Printed (py "🚀 Servidor Flask iniciado!");
            Printed (str_repeat (py "=") 50);
            Printed (py "✓ API Key encontrada!");
            Printed (py "✓ API Key: " ++ slice_to key 10 ++ py "..."
                     ++ slice_last key 4);
            Printed (str_repeat (py "=") 50);
            Printed (py "🌐 Servidor rodando em: http://127.0.0.1:5000");
            Printed (str_repeat (py "=") 50)]) /\
    (str_truthy key = false ->
     In (Printed (py "⚠ Nenhuma API Key configurada")) log) /\
    List.length (slice_to key 10) <= 10 /\
    List.length (slice_last key 4) <= 4.
Proof.
  intros key.
  destruct (main_banner_run rt w) as (log & Hlog & Hquiet & Hrun).
  fold key in Hquiet, Hrun.
  eexists. split; [rewrite Hrun; reflexivity|]. split; [|split; [|split]].
  - repeat (apply Forall_app; split); try exact Hlog;
      destruct (str_truthy key); repeat constructor.
  - intros Hk. rewrite Hk, (Hquiet Hk). reflexivity.
  - intros Hk. rewrite Hk.
    apply in_or_app. right. apply in_or_app. right.
    apply in_or_app. left. left. reflexivity.
  - split.
    + apply firstn_le_length.
    + unfold slice_last. rewrite length_skipn. lia.
Qed.

Lemma main_banner_lines_witness :
  In (Printed (py "⚠ Nenhuma API Key configurada"))
     (trace (fst (main_banner Scenario.remote_up
                    (Scenario.world_of Missing Scenario.bob_txt)))).
Proof.
  destruct (main_banner_lines Scenario.remote_up
              (Scenario.world_of Missing Scenario.bob_txt))
    as (log & Hrun & _ & _ & Hno & _).
  rewrite Hrun. exact (Hno eq_refl).
Defined.

(** X22.  The banner does not hide a short key: when the stored key has at
    most ten characters, the line printed at start-up contains the whole
    key. *)
Theorem main_banner_shows_short_key (rt : runtime) (w : world) :
  let key := stored_key (disk w) in
  str_truthy key = true ->
  List.length key <= 10 ->
  In (Printed (py "✓ API Key: " ++ key ++ py "..." ++ slice_last key 4))
     (trace (fst (main_banner rt w))).
Proof.
  intros key Hk Hlen.
  destruct (main_banner_run rt w) as (log & _ & Hquiet & Hrun).
  fold key in Hquiet, Hrun. rewrite Hrun, Hk, (Hquiet Hk).
  cbn [fst logged trace]. apply in_or_app. right.
  unfold key_line, slice_to. rewrite (firstn_all2 key Hlen).
  cbn [app]. do 4 right. left. reflexivity.
Qed.

Lemma main_banner_shows_short_key_witness :
  In (Printed (py "✓ API Key: " ++ py "sk-12345" ++ py "..."
               ++ slice_last (py "sk-12345") 4))
     (trace (fst (main_banner Scenario.remote_up
                    (Scenario.world_of (Scenario.key_file (py "sk-12345"))
                       Scenario.bob_txt)))).
Proof.
  refine (main_banner_shows_short_key Scenario.remote_up
            (Scenario.world_of (Scenario.key_file (py "sk-12345"))
               Scenario.bob_txt) _ _).
  - vm_compute. reflexivity.
  - vm_compute. repeat constructor.
Defined.

(** X23.  Who may change what, for every request and every world: only
    [reset_context] rebinds [contexto], and only [save_api_key] and
    [delete_api_key] change the files.  [check_api_key] and [chat] leave
    both, [save_api_key] and [delete_api_key] leave [contexto], and
    [reset_context] leaves the files, also when they raise. *)
Theorem handlers_footprint (rt : runtime) (data : json) (w : world) :
  (disk (fst (check_api_key rt w)) = disk w /\
   contexto (fst (check_api_key rt w)) = contexto w) /\
  (disk (fst (chat rt data w)) = disk w /\
   contexto (fst (chat rt data w)) = contexto w) /\
  contexto (fst (save_api_key rt data w)) = contexto w /\
  contexto (fst (delete_api_key rt w)) = contexto w /\
  disk (fst (reset_context rt w)) = disk w.
Proof.
  split; [|split; [|split; [|split]]].
  - destruct (check_api_key_run rt w) as (log & -> & _). split; reflexivity.
  - destruct (chat_log rt data w) as (log & -> & _). split; reflexivity.
  - assert (Hraise : forall e : exn,
              contexto (fst (w, @Raise response e)) = contexto w)
      by reflexivity.
    destruct (get data (py "api_key") (JStr (py ""))) as [v|e] eqn:Hget.
    2:{ unfold save_api_key, bind at 1, lift. rewrite Hget. apply Hraise. }
    destruct v as [| | |k| |];
      try (unfold save_api_key, bind at 1 2, lift; rewrite Hget;
           apply Hraise).
    destruct (save_api_key_cases rt data k w Hget)
      as [H|[H|[(e & H)|[(e & H)|[(_ & _ & H)|(w3 & e & H & Hc & _)]]]]];
      rewrite H; try reflexivity. exact Hc.
  - rewrite delete_api_key_run.
    destruct (config_json (disk w)) as [| |a dat]; try reflexivity.
    destruct (cwd_writable (disk w)); reflexivity.
  - rewrite reset_context_run.
    destruct (text_files (disk w) (CONTEXTO_FILE rt)) as [| |[|] [|s]];
      reflexivity.
Qed.
